(** * The decision endpoint of the energy-saving rApp (app/main.py)

    A shallow embedding of the [/decision] handler: the request record,
    the file system and clock it works on, the calls it makes to the
    pipeline modules, and the six numbered steps of the handler
    (idempotency check, forecast, decision, policy payload, push or dry
    run, audit and log). *)

From Stdlib Require Import ZArith Floats Ascii String.
From stdpp Require Import gmap strings list pretty.

Open Scope string_scope.
Open Scope list_scope.
Set Warnings "-register-all,-inexact-float,-abstract-large-number".

(** ** Python values

    The handler moves untyped Python objects around (the decision read
    back with [json.loads], the payload of [build_policy], the result of
    [post_policy]) and serialises them with [json.dumps]. A dict keeps
    its insertion order, so it is an association list. *)

Inductive PyVal : Type :=
| PNone
| PBool (b : bool)
| PInt (z : Z)
| PFloat (f : float)
| PStr (s : string)
| PList (l : list PyVal)
| PDict (d : list (string * PyVal)).

(** [d[k]] of a dict literal: the first binding of [k]. *)
Fixpoint dict_lookup (k : string) (d : list (string * PyVal)) : option PyVal :=
  match d with
  | [] => None
  | (k', v) :: d' => if String.eqb k k' then Some v else dict_lookup k d'
  end.

(** [bool(x)]. *)
Definition truthy (v : PyVal) : bool :=
  match v with
  | PNone => false
  | PBool b => b
  | PInt z => negb (Z.eqb z 0)
  | PFloat f => negb (PrimFloat.eqb f 0%float)
  | PStr s => negb (String.eqb s "")
  | PList l => match l with [] => false | _ => true end
  | PDict d => match d with [] => false | _ => true end
  end.

(** [Optional[str]] as a JSON value. *)
Definition py_opt_str (o : option string) : PyVal :=
  match o with
  | None => PNone
  | Some s => PStr s
  end.

(** ** Requests *)

(** [class DecisionReq(BaseModel)], with its defaults. *)
Record DecisionReq : Type := {
  minutes : Z;
  t_low : float;
  t_high : float;
  dt_min : Z;
  cooldown : Z;
  targetRU : string;
  expire_minutes : Z;
  confidence : float;
  dry_run : bool;
  idempotency_key : option string
}.

Definition default_req : DecisionReq :=
  {| minutes := 1440; t_low := 0.25%float; t_high := 0.5%float;
     dt_min := 10; cooldown := 20; targetRU := "RU_001";
     expire_minutes := 30; confidence := 0.8%float;
     dry_run := false; idempotency_key := None |}.

Definition with_minutes (m : Z) (r : DecisionReq) : DecisionReq :=
  {| minutes := m; t_low := t_low r; t_high := t_high r;
     dt_min := dt_min r; cooldown := cooldown r; targetRU := targetRU r;
     expire_minutes := expire_minutes r; confidence := confidence r;
     dry_run := dry_run r; idempotency_key := idempotency_key r |}.

(** Two requests that agree on every field but [minutes]. *)
Definition same_but_minutes (r1 r2 : DecisionReq) : Prop :=
  t_low r1 = t_low r2 /\ t_high r1 = t_high r2 /\
  dt_min r1 = dt_min r2 /\ cooldown r1 = cooldown r2 /\
  targetRU r1 = targetRU r2 /\ expire_minutes r1 = expire_minutes r2 /\
  confidence r1 = confidence r2 /\ dry_run r1 = dry_run r2 /\
  idempotency_key r1 = idempotency_key r2.

Definition with_key (k : option string) (r : DecisionReq) : DecisionReq :=
  {| minutes := minutes r; t_low := t_low r; t_high := t_high r;
     dt_min := dt_min r; cooldown := cooldown r; targetRU := targetRU r;
     expire_minutes := expire_minutes r; confidence := confidence r;
     dry_run := dry_run r; idempotency_key := k |}.

Definition with_dry_run (b : bool) (r : DecisionReq) : DecisionReq :=
  {| minutes := minutes r; t_low := t_low r; t_high := t_high r;
     dt_min := dt_min r; cooldown := cooldown r; targetRU := targetRU r;
     expire_minutes := expire_minutes r; confidence := confidence r;
     dry_run := b; idempotency_key := idempotency_key r |}.

(** Truth value of [req.idempotency_key] in [if req.idempotency_key:]:
    [None] and the empty string are false. *)
Definition key_given (o : option string) : option string :=
  match o with
  | None => None
  | Some k => if String.eqb k "" then None else Some k
  end.

(** ** The clock *)

(** A [datetime] in UTC. *)
Record DateTime : Type := {
  year : Z; month : Z; day : Z;
  hour : Z; minute : Z; second : Z; microsecond : Z
}.

(** The ranges of the fields of a [datetime] that [now()] can return
    (four-digit years). *)
Definition dt_valid (t : DateTime) : Prop :=
  (1000 <= year t <= 9999 /\ 1 <= month t <= 12 /\ 1 <= day t <= 31 /\
   0 <= hour t < 24 /\ 0 <= minute t < 60 /\ 0 <= second t < 60 /\
   0 <= microsecond t < 1000000)%Z.

(** The same instant cut to whole seconds. *)
Definition dt_seconds (t : DateTime) : list Z :=
  [year t; month t; day t; hour t; minute t; second t].

(** Lexicographic order on instants. *)
Fixpoint lex_lt (a b : list Z) : bool :=
  match a, b with
  | x :: a', y :: b' => Z.ltb x y || (Z.eqb x y && lex_lt a' b')
  | _, _ => false
  end.

Definition dt_lt (a b : DateTime) : bool :=
  lex_lt (dt_seconds a ++ [microsecond a]) (dt_seconds b ++ [microsecond b]).

Definition newline : string := String (ascii_of_nat 10) "".

(** The decimal digit of the units of [n]. *)
Definition digit (n : Z) : ascii := ascii_of_nat (Z.to_nat (48 + n mod 10)).

(** [n] zero-padded to two, four and six digits. *)
Definition pad2 (n : Z) : string :=
  String (digit (n / 10)) (String (digit n) "").

Definition pad4 (n : Z) : string :=
  String (digit (n / 1000)) (String (digit (n / 100)) (pad2 n)).

Definition pad6 (n : Z) : string :=
  String (digit (n / 100000)) (String (digit (n / 10000)) (pad4 n)).

(** [t.strftime("%Y%m%dT%H%M%SZ")]. *)
Definition strftime_compact (t : DateTime) : string :=
  pad4 (year t) +:+ pad2 (month t) +:+ pad2 (day t) +:+ "T" +:+
  pad2 (hour t) +:+ pad2 (minute t) +:+ pad2 (second t) +:+ "Z".

(** [t.isoformat()] of an aware UTC datetime; the fraction is left out
    when the microsecond is zero. *)
Definition isoformat (t : DateTime) : string :=
  pad4 (year t) +:+ "-" +:+ pad2 (month t) +:+ "-" +:+ pad2 (day t) +:+ "T" +:+
  pad2 (hour t) +:+ ":" +:+ pad2 (minute t) +:+ ":" +:+ pad2 (second t) +:+
  (if Z.eqb (microsecond t) 0 then "" else "." +:+ pad6 (microsecond t)) +:+
  "+00:00".

(** ** The world of the handler *)

(** Exceptions that leave the handler. *)
Inductive Exn : Type :=
| OSError (path : string)
| JSONDecodeError
| AttributeError
| ValueError
| Raised (cls : string).

(** The pipeline modules the handler imports. *)
Inductive Collab : Type :=
| FetchPm | RunEtl | PredictNextWindow | Decide | BuildPolicy | PostPolicy.

(** What the handler does, in order. *)
Inductive Event : Type :=
| EvCall (c : Collab)
| EvMkdir (path : string)
| EvExists (path : string)
| EvRead (path : string)
| EvWrite (path : string) (text : string)
| EvAppend (path : string) (text : string)
| EvNow.

Inductive Result (A : Type) : Type :=
| Ok (a : A)
| Raise (e : Exn).
Arguments Ok {A} a.
Arguments Raise {A} e.

(** How the operating system refuses a path: before the file is opened
    (no permission, a directory in the way), after it was opened for
    writing (a full disk, a size limit), which leaves the file with
    whatever got through, often nothing; not at all, because the path is
    no path (an embedded NUL, a [ValueError] in Python); or already when
    the path is looked up (a name too long, a directory that may not be
    searched). *)
Inductive Refusal : Type :=
| RefusedAtOpen
| RefusedAfterOpen (kept : string)
| InvalidPath
| Unsearchable.

Section Handler.

(** State outside the file system that the pipeline modules depend on
    and change (the control plane, the network, the process
    environment). *)
Context {Ext : Type}.

(** Files are text by path; [faulty] tells on which paths the operating
    system refuses a read or write (permissions, a full disk, a missing
    directory) and [refusal] how it does; [now] is what
    [datetime.now(timezone.utc)] returns. *)
Record World : Type := {
  files : gmap string string;
  faulty : string -> bool;
  refusal : string -> Refusal;
  now : DateTime;
  ext : Ext
}.

Definition set_files (f : gmap string string) (w : World) : World :=
  {| files := f; faulty := faulty w; refusal := refusal w; now := now w;
     ext := ext w |}.

Definition set_now (t : DateTime) (w : World) : World :=
  {| files := files w; faulty := faulty w; refusal := refusal w; now := t;
     ext := ext w |}.

Record St : Type := { world : World; trace : list Event }.

Definition init (w : World) : St := {| world := w; trace := [] |}.

(** State and exceptions; what was done before a raise stays done. *)
Definition M (A : Type) : Type := St -> Result A * St.

Definition ret {A} (a : A) : M A := fun s => (Ok a, s).

Definition raise {A} (e : Exn) : M A := fun s => (Raise e, s).

Definition bind {A B} (m : M A) (k : A -> M B) : M B :=
  fun s =>
    match m s with
    | (Ok a, s') => k a s'
    | (Raise e, s') => (Raise e, s')
    end.

Notation "'let*' x ':=' m 'in' k" := (bind m (fun x => k))
  (at level 10, x pattern, m at level 100, k at level 200).

Definition emit (ev : Event) : M unit :=
  fun s => (Ok tt, {| world := world s; trace := trace s ++ [ev] |}).

(** A call into a pipeline module: logged, then run on the world. *)
Definition call {A} (c : Collab) (f : World -> Result A * World) : M A :=
  fun s =>
    let '(r, w') := f (world s) in
    (r, {| world := w'; trace := trace s ++ [EvCall c] |}).

(** ** Files *)

Definition path_join (d name : string) : string := d +:+ "/" +:+ name.

(** [Path(p).mkdir(parents=True, exist_ok=True)]: directories are not
    part of the world, the call is only logged. *)
Definition mkdir_p (p : string) : M unit := emit (EvMkdir p).

(** Whether looking up [p] is refused: a file that is there is seen; a
    path that is not there may be one the operating system will not even
    look up. *)
Definition stat_refused (w : World) (p : string) : bool :=
  match files w !! p with
  | Some _ => false
  | None =>
      faulty w p &&
      match refusal w p with
      | Unsearchable => true
      | _ => false
      end
  end.

(** [Path(p).exists()]: [False] for a path that is not there or is no
    path, an [OSError] when the lookup itself is refused. *)
Definition path_exists (p : string) : M bool :=
  fun s =>
    if stat_refused (world s) p then (Raise (OSError p), s)
    else (Ok (bool_decide (is_Some (files (world s) !! p))),
          {| world := world s; trace := trace s ++ [EvExists p] |}).

(** [Path(p).write_text(text)]: opens the file for writing, which
    empties it, and writes the text. A refused write raises: before the
    open it leaves the file as it was, after the open it leaves what got
    through. *)
Definition write_text (p text : string) : M unit :=
  fun s =>
    if faulty (world s) p then
      match refusal (world s) p with
      | RefusedAfterOpen kept =>
          (Raise (OSError p),
           {| world := set_files (<[p := kept]> (files (world s))) (world s);
              trace := trace s |})
      | InvalidPath => (Raise ValueError, s)
      | RefusedAtOpen => (Raise (OSError p), s)
      | Unsearchable => (Raise (OSError p), s)
      end
    else (Ok tt, {| world := set_files (<[p := text]> (files (world s))) (world s);
                    trace := trace s ++ [EvWrite p text] |}).

(** The error a refused write at [p] raises, and the world it leaves. *)
Definition refused_error (w : World) (p : string) : Exn :=
  match refusal w p with
  | InvalidPath => ValueError
  | _ => OSError p
  end.

Definition refused_world (w : World) (p : string) : World :=
  match refusal w p with
  | RefusedAfterOpen kept => set_files (<[p := kept]> (files w)) w
  | _ => w
  end.

(** [Path(p).read_text()]: a missing file raises too
    ([FileNotFoundError] is an [OSError]). *)
Definition read_text (p : string) : M string :=
  fun s =>
    if faulty (world s) p then (Raise (OSError p), s)
    else match files (world s) !! p with
         | Some text => (Ok text, {| world := world s; trace := trace s ++ [EvRead p] |})
         | None => (Raise (OSError p), s)
         end.

(** [with open(p, "a") as f: f.write(text)]. *)
Definition append_text (p text : string) : M unit :=
  fun s =>
    if faulty (world s) p then (Raise (OSError p), s)
    else (Ok tt,
          {| world := set_files (<[p := default "" (files (world s) !! p) +:+ text]>
                                   (files (world s))) (world s);
             trace := trace s ++ [EvAppend p text] |}).

(** [datetime.now(timezone.utc)]. *)
Definition datetime_now : M DateTime :=
  fun s => (Ok (now (world s)), {| world := world s; trace := trace s ++ [EvNow] |}).

(** [v.get(k)]: a dict answers, with [None] for a missing key; any
    other value has no [get]. *)
Definition py_get (v : PyVal) (k : string) : M PyVal :=
  match v with
  | PDict d => ret (default PNone (dict_lookup k d))
  | _ => raise AttributeError
  end.

(** ** What the handler imports

    [hashlib] and [json] from Python's library, and the five pipeline
    modules of the repository ([src.pm_adapter], [src.etl],
    [src.lstm_multi], [src.decision], [src.policy_adapter]); the handler
    is verified for every behaviour of these. *)

Record Library : Type := {
  (** [hashlib.sha256(s.encode()).hexdigest()] *)
  sha256_hex : string -> string;
  (** [json.loads(text)] *)
  json_loads : string -> option PyVal;
  (** [json.dumps(v, ensure_ascii=False, indent=2)] *)
  json_dumps_indent : PyVal -> string;
  (** [json.dumps(v, ensure_ascii=False)] *)
  json_dumps : PyVal -> string
}.

Record Pipeline : Type := {
  (** [fetch_pm(start_iso, end_iso)], the path of the raw data *)
  fetch_pm : option string -> option string -> World -> Result string * World;
  (** [run_etl(raw_path)], the path of the features *)
  run_etl : string -> World -> Result string * World;
  (** [predict_next_window(feat_path, onnx_path, meta_path, out_path)] *)
  predict_next_window :
    string -> string -> string -> string -> World -> Result string * World;
  (** [decide(forecast_path, t_low, t_high, dt_min, cooldown)], the path
      of the decision file *)
  decide : string -> float -> float -> Z -> Z -> World -> Result string * World;
  (** [build_policy(decision, target_ru, expire_minutes, confidence)] *)
  build_policy : PyVal -> string -> Z -> float -> World -> Result PyVal * World;
  (** [post_policy(payload)] *)
  post_policy : PyVal -> World -> Result PyVal * World
}.

Variable L : Library.
Variable P : Pipeline.

(** [os.getenv] at import time. *)
Variable environ : gmap string string.

Definition MODEL_PATH : string := default "models/model.onnx" (environ !! "MODEL_PATH").
Definition META_PATH : string := default "models/model_meta.json" (environ !! "META_PATH").

(** ** The handler, step by step *)

Definition idem_dir : string := "data/idempotency".

Definition idem_flag (key : string) : string :=
  path_join idem_dir (sha256_hex L key +:+ ".flag").

Definition duplicate_response (key : string) : PyVal :=
  PDict [("error", PStr "duplicate idempotency_key");
         ("idempotency_key", PStr key)].

(** Step 0, the idempotency check: [Some r] is the early [return r]. *)
Definition idempotency_check (req : DecisionReq) : M (option PyVal) :=
  match key_given (idempotency_key req) with
  | Some key =>
      let* _ := mkdir_p idem_dir in
      let* seen := path_exists (idem_flag key) in
      if seen then ret (Some (duplicate_response key))
      else
        let* t := datetime_now in
        let* _ := write_text (idem_flag key) (isoformat t) in
        ret None
  | None => ret None
  end.

(** Step 1: data, ETL, inference. *)
Definition forecast_step : M string :=
  let* raw_path := call FetchPm (fetch_pm P None None) in
  let* feat_path := call RunEtl (run_etl P raw_path) in
  call PredictNextWindow
    (predict_next_window P feat_path MODEL_PATH META_PATH
       "data/processed/forecast.csv").

(** Step 2: the decision, read back from the file [decide] wrote. *)
Definition decision_step (req : DecisionReq) (fcst_path : string) : M PyVal :=
  let* dec_path :=
    call Decide (decide P fcst_path (t_low req) (t_high req)
                   (dt_min req) (cooldown req)) in
  let* text := read_text dec_path in
  match json_loads L text with
  | Some v => ret v
  | None => raise JSONDecodeError
  end.

(** Step 3: the policy payload. *)
Definition policy_step (req : DecisionReq) (decision_dict : PyVal) : M PyVal :=
  call BuildPolicy
    (build_policy P decision_dict (targetRU req) (expire_minutes req)
       (confidence req)).

Definition payload_file : string := "data/processed/policy_payload.json".

Definition dry_run_result : PyVal :=
  PDict [("sent", PBool false); ("dry_run", PBool true);
         ("saved_to", PStr "data/processed/policy_payload.json")].

(** Step 4: push, or dry run. *)
Definition push_step (req : DecisionReq) (payload : PyVal) : M PyVal :=
  if dry_run req then
    let* _ := mkdir_p "data/processed" in
    let* _ := write_text payload_file (json_dumps_indent L payload) in
    ret dry_run_result
  else
    call PostPolicy (post_policy P payload).

Definition audit_id_of (ts target : string) : string :=
  ts +:+ "-" +:+ target +:+ "-a87".

Definition audit_dir : string := "data/audit".

Definition audit_file (audit_id : string) : string :=
  path_join audit_dir (audit_id +:+ ".json").

Definition log_file : string := path_join "logs" "decision_log.jsonl".

Definition request_dict (req : DecisionReq) : PyVal :=
  PDict [("t_low", PFloat (t_low req)); ("t_high", PFloat (t_high req));
         ("dt_min", PInt (dt_min req)); ("cooldown", PInt (cooldown req));
         ("targetRU", PStr (targetRU req)); ("dry_run", PBool (dry_run req));
         ("expire_minutes", PInt (expire_minutes req));
         ("confidence", PFloat (confidence req));
         ("idempotency_key", py_opt_str (idempotency_key req))].

Definition audit_entry (req : DecisionReq) (audit_id ts : string)
    (decision_dict payload push_res : PyVal) : PyVal :=
  PDict [("audit_id", PStr audit_id); ("ts", PStr ts);
         ("request", request_dict req);
         ("decision", decision_dict);
         ("policy_payload", payload);
         ("push_result", push_res)].

Definition response (audit_id : string) (decision_dict payload push_res : PyVal)
    : PyVal :=
  PDict [("audit_id", PStr audit_id);
         ("decision", decision_dict);
         ("policy_payload", payload);
         ("push_result", push_res)].

(** Step 5: the audit entry and the log line. *)
Definition audit_step (req : DecisionReq) (decision_dict payload push_res : PyVal)
    : M PyVal :=
  let* t := datetime_now in
  let ts := strftime_compact t in
  let audit_id := audit_id_of ts (targetRU req) in
  let* _ := mkdir_p audit_dir in
  let* _ := write_text (audit_file audit_id)
              (json_dumps_indent L
                 (audit_entry req audit_id ts decision_dict payload push_res)) in
  let* _ := mkdir_p "logs" in
  let* action := py_get decision_dict "action" in
  let* reason := py_get decision_dict "reason" in
  let* mode_after := py_get decision_dict "mode_after" in
  let* sent := py_get push_res "sent" in
  let log_line :=
    PDict [("ts", PStr ts); ("targetRU", PStr (targetRU req));
           ("decision", action); ("reason", reason);
           ("mode_after", mode_after); ("push_sent", PBool (truthy sent))] in
  let* _ := append_text log_file (json_dumps L log_line +:+ newline) in
  ret (response audit_id decision_dict payload push_res).

(** Steps 1 to 3: everything computed before the push. *)
Definition compute_steps (req : DecisionReq) : M (PyVal * PyVal) :=
  let* fcst_path := forecast_step in
  let* decision_dict := decision_step req fcst_path in
  let* payload := policy_step req decision_dict in
  ret (decision_dict, payload).

(** Steps 1 to 5. *)
Definition pipeline (req : DecisionReq) : M PyVal :=
  let* (decision_dict, payload) := compute_steps req in
  let* push_res := push_step req payload in
  audit_step req decision_dict payload push_res.

(** [@app.post("/decision") def decision(req)]. *)
Definition decision (req : DecisionReq) : M PyVal :=
  let* early := idempotency_check req in
  match early with
  | Some r => ret r
  | None => pipeline req
  end.

End Handler.

Arguments World : clear implicits.
Arguments stat_refused : simpl never.
Arguments St : clear implicits.
Arguments M : clear implicits.
Arguments Pipeline : clear implicits.

(** ** Reading a trace *)

(** The pipeline modules called, in order. *)
Fixpoint calls (tr : list Event) : list Collab :=
  match tr with
  | [] => []
  | EvCall c :: tr' => c :: calls tr'
  | _ :: tr' => calls tr'
  end.

(** The paths the handler wrote or appended to, in order. *)
Fixpoint writes (tr : list Event) : list string :=
  match tr with
  | [] => []
  | EvWrite p _ :: tr' => p :: writes tr'
  | EvAppend p _ :: tr' => p :: writes tr'
  | _ :: tr' => writes tr'
  end.


(** ** What the handler wrote

    The writes of a request, by where they go. *)

(** The write of step 0. *)
Definition guard_writes (L : Library) (req : DecisionReq) : list string :=
  match key_given (idempotency_key req) with
  | Some k => [idem_flag L k]
  | None => []
  end.

(** The write of step 4. *)
Definition push_writes (req : DecisionReq) : list string :=
  if dry_run req then [payload_file] else [].

Fixpoint starts_with (pre s : string) : bool :=
  match pre, s with
  | EmptyString, _ => true
  | String a pre', String b s' => Ascii.eqb a b && starts_with pre' s'
  | String _ _, EmptyString => false
  end.

Definition is_audit_path (p : string) : bool := starts_with "data/audit/" p.

(** Audit entries written. *)
Definition audit_writes (tr : list Event) : list string :=
  List.filter is_audit_path (writes tr).

Definition is_post (c : Collab) : bool :=
  match c with
  | PostPolicy => true
  | _ => false
  end.

(** Calls of [post_policy]. *)
Definition pushes (tr : list Event) : list Collab :=
  List.filter is_post (calls tr).

(** Lines appended to the decision log. *)
Definition log_appends (tr : list Event) : list string :=
  List.filter (String.eqb log_file) (writes tr).

Notation "'let*' x ':=' m 'in' k" := (bind m (fun x => k))
  (at level 10, x pattern, m at level 100, k at level 200).

(** ** Reading a run *)

Section Observations.
Context {Ext : Type}.
Variable L : Library.

(** Whatever its outcome, [m] only appends events satisfying [good]. *)
Definition emits {A} (good : Event -> Prop) (m : M Ext A) : Prop :=
  forall s, exists evs, trace (snd (m s)) = trace s ++ evs /\ Forall good evs.

(** An event of steps 1 to 3: a call to a module other than
    [post_policy], or a read. *)
Definition computing (ev : Event) : Prop :=
  match ev with
  | EvCall c => c <> PostPolicy
  | EvRead _ => True
  | _ => False
  end.


(** The identifier step 5 gives a request that reaches it in state [s]. *)
Definition audit_id_at (req : DecisionReq) (s : St Ext) : string :=
  audit_id_of (strftime_compact (now (world s))) (targetRU req).

Definition audit_text (req : DecisionReq) (s : St Ext) (decision_dict payload push_res : PyVal)
    : string :=
  json_dumps_indent L
    (audit_entry req (audit_id_at req s) (strftime_compact (now (world s)))
       decision_dict payload push_res).

Definition log_text (req : DecisionReq) (s : St Ext) (dd pr : list (string * PyVal)) : string :=
  json_dumps L
    (PDict [("ts", PStr (strftime_compact (now (world s))));
            ("targetRU", PStr (targetRU req));
            ("decision", default PNone (dict_lookup "action" dd));
            ("reason", default PNone (dict_lookup "reason" dd));
            ("mode_after", default PNone (dict_lookup "mode_after" dd));
            ("push_sent", PBool (truthy (default PNone (dict_lookup "sent" pr))))])
  +:+ newline.

End Observations.

(** ** Two requests at once

    FastAPI runs a [def] endpoint in a thread pool, so two requests can
    be inside step 0 together. The step is two system calls, the
    [exists()] and the [write_text()], and the other request can run
    between them. *)

(** Where a request stands in step 0. *)
Inductive GuardPc : Type := AtCheck | AtSet | Passed | Rejected.

Section Race.
Context {Ext : Type}.
Variable L : Library.

(** One system call of step 0 for a request with a key. *)
Definition guard_step (key : string) (pc : GuardPc) : M Ext GuardPc :=
  match pc with
  | AtCheck =>
      let* _ := mkdir_p idem_dir in
      let* seen := path_exists (idem_flag L key) in
      ret (if seen then Rejected else AtSet)
  | AtSet =>
      let* t := datetime_now in
      let* _ := write_text (idem_flag L key) (isoformat t) in
      ret Passed
  | Passed => ret Passed
  | Rejected => ret Rejected
  end.

(** Step 0 of two requests under a schedule: [false] lets the first
    request make its next call, [true] the second. *)
Fixpoint interleave (k1 k2 : string) (sched : list bool)
    (pcs : GuardPc * GuardPc) : M Ext (GuardPc * GuardPc) :=
  match sched with
  | [] => ret pcs
  | false :: sched' =>
      let* pc := guard_step k1 (fst pcs) in
      interleave k1 k2 sched' (pc, snd pcs)
  | true :: sched' =>
      let* pc := guard_step k2 (snd pcs) in
      interleave k1 k2 sched' (fst pcs, pc)
  end.

(** What step 0 hands to the rest of the handler. *)
Definition guard_outcome (key : string) (pc : GuardPc) : option PyVal :=
  match pc with
  | Rejected => Some (duplicate_response key)
  | _ => None
  end.

End Race.

(** The rest of the handler for a request that left step 0 at [pc]. *)
Definition after_guard {Ext : Type} (L : Library) (P : Pipeline Ext)
    (environ : gmap string string) (req : DecisionReq) (key : string)
    (pc : GuardPc) : M Ext PyVal :=
  match guard_outcome key pc with
  | Some r => ret r
  | None => pipeline L P environ req
  end.



(** ** A small running instance

    A library and a pipeline simple enough to run the handler on: the
    control plane counts the policies it has received. *)

Module Demo.

Definition quote : string := String (ascii_of_nat 34) "".

(** A compact stand-in for [json.dumps]. *)
Fixpoint show (v : PyVal) : string :=
  match v with
  | PNone => "null"
  | PBool true => "true"
  | PBool false => "false"
  | PInt z => pretty z
  | PFloat _ => "<float>"
  | PStr s => quote +:+ s +:+ quote
  | PList l =>
      "[" +:+ (fix items (l : list PyVal) : string :=
                 match l with
                 | [] => ""
                 | x :: l' => show x +:+ "," +:+ items l'
                 end) l +:+ "]"
  | PDict d =>
      "{" +:+ (fix items (d : list (string * PyVal)) : string :=
                 match d with
                 | [] => ""
                 | (k, x) :: d' => quote +:+ k +:+ quote +:+ ":" +:+ show x +:+ "," +:+ items d'
                 end) d +:+ "}"
  end.

Definition hold_decision : PyVal :=
  PDict [("action", PStr "hold"); ("reason", PStr "in_band");
         ("mode_after", PStr "normal")].

Definition lib : Library :=
  {| sha256_hex := fun s => "h" +:+ s;
     json_loads := fun text => if String.eqb text "hold" then Some hold_decision else None;
     json_dumps_indent := show;
     json_dumps := show |}.

Definition dec_file : string := "data/processed/decision.json".

Definition payload_of (d : PyVal) (target : string) (expire : Z) (conf : float) : PyVal :=
  PDict [("target_ru", PStr target);
         ("mode", match d with
                  | PDict kv => default PNone (dict_lookup "mode_after" kv)
                  | _ => PNone
                  end);
         ("expire_minutes", PInt expire); ("confidence", PFloat conf)].

(** Every module answers; [post_policy] delivers. *)
Definition live : Pipeline nat :=
  {| fetch_pm := fun _ _ w => (Ok "data/raw/raw.csv", w);
     run_etl := fun _ w => (Ok "data/processed/features.csv", w);
     predict_next_window := fun _ _ _ out w => (Ok out, w);
     decide := fun _ _ _ _ _ w =>
       (Ok dec_file, set_files (<[dec_file := "hold"]> (files w)) w);
     build_policy := fun d target expire conf w =>
       (Ok (payload_of d target expire conf), w);
     post_policy := fun _ w =>
       (Ok (PDict [("sent", PBool true)]),
        {| files := files w; faulty := faulty w; refusal := refusal w;
           now := now w; ext := S (ext w) |}) |}.

(** As [live], but the decision module rejects the forecast. *)
Definition rejecting : Pipeline nat :=
  {| fetch_pm := fetch_pm live;
     run_etl := run_etl live;
     predict_next_window := predict_next_window live;
     decide := fun _ _ _ _ _ w => (Raise (Raised "InvalidForecast"), w);
     build_policy := build_policy live;
     post_policy := post_policy live |}.

Definition noon : DateTime :=
  {| year := 2026; month := 11; day := 3; hour := 12; minute := 0;
     second := 0; microsecond := 250000 |}.

Definition noon_later : DateTime :=
  {| year := 2026; month := 11; day := 3; hour := 12; minute := 0;
     second := 0; microsecond := 750000 |}.

Definition world0 : World nat :=
  {| files := ∅; faulty := fun _ => false; refusal := fun _ => RefusedAtOpen;
     now := noon; ext := 0 |}.

Definition noon_next : DateTime :=
  {| year := 2026; month := 11; day := 3; hour := 12; minute := 0;
     second := 1; microsecond := 0 |}.

Definition run (P : Pipeline nat) (req : DecisionReq) (w : World nat)
    : Result PyVal * St nat :=
  decision lib P ∅ req (init w).

(** The answer of a run, [None] if it raised. *)
Definition answer {A} (x : Result PyVal * A) : PyVal :=
  match fst x with
  | Ok r => r
  | Raise _ => PNone
  end.

Definition req_abc : DecisionReq := with_key (Some "abc") default_req.

Definition req_dry : DecisionReq := with_dry_run true default_req.

(** The world a first request with the key [abc] leaves behind. *)
Definition world_marked : World nat := world (snd (run live req_abc world0)).



(** A request whose target holds a NUL, and a world that takes no path
    with a NUL. *)
Definition nul : string := String (ascii_of_nat 0) "".

Fixpoint has_nul (s : string) : bool :=
  match s with
  | EmptyString => false
  | String c s' => Ascii.eqb c (ascii_of_nat 0) || has_nul s'
  end.

Definition req_nul : DecisionReq :=
  {| minutes := 1440; t_low := 0.25%float; t_high := 0.5%float;
     dt_min := 10; cooldown := 20; targetRU := "RU" +:+ nul;
     expire_minutes := 30; confidence := 0.8%float;
     dry_run := false; idempotency_key := None |}.

Definition world_nul : World nat :=
  {| files := ∅; faulty := has_nul; refusal := fun _ => InvalidPath;
     now := noon; ext := 0 |}.


Definition hold_fields : list (string * PyVal) :=
  [("action", PStr "hold"); ("reason", PStr "in_band");
   ("mode_after", PStr "normal")].

Definition sent_fields : list (string * PyVal) := [("sent", PBool true)].

(** The states between the steps of a request. *)
Definition after_check (req : DecisionReq) (w : World nat) : St nat :=
  snd (idempotency_check lib req (init w)).

Definition after_compute (P : Pipeline nat) (req : DecisionReq) (w : World nat)
    : St nat :=
  snd (compute_steps lib P ∅ req (after_check req w)).

Definition after_push (P : Pipeline nat) (req : DecisionReq) (w : World nat)
    : St nat :=
  snd (push_step lib P req
         (payload_of hold_decision (targetRU req) (expire_minutes req)
            (confidence req))
         (after_compute P req w)).

Definition req_first : DecisionReq := with_key (Some "first") default_req.

Definition req_second : DecisionReq := with_key (Some "second") default_req.

(** The world after [req_first], the clock half a second on. *)
Definition world_later : World nat :=
  set_now noon_later (world (snd (run live req_first world0))).

(** The world after [req_first], the clock in the next second. *)
Definition world_next : World nat :=
  set_now noon_next (world (snd (run live req_first world0))).

Definition payload_hold : PyVal :=
  payload_of hold_decision "RU_001" 30 0.8%float.

(** Two requests with the key [abc] whose checks run before either set,
    each then running the rest of the handler. *)
Definition race : M nat (PyVal * PyVal) :=
  let* pcs := interleave lib "abc" "abc" [false; true; false; true]
                (AtCheck, AtCheck) in
  let* r1 := after_guard lib live ∅ req_abc "abc" (fst pcs) in
  let* r2 := after_guard lib live ∅ req_abc "abc" (snd pcs) in
  ret (r1, r2).

End Demo.

(** ** The other endpoints

    [/healthz], [/ingest_pm] and [/forecast] of the same file. *)

(** [class ForecastReq(BaseModel)]. *)
Module ForecastReq.
Record t : Type := {
  minutes : Z;
  start : option string;
  end_ : option string
}.
End ForecastReq.

(** [class IngestReq(BaseModel)]. *)
Module IngestReq.
Record t : Type := {
  start : string;
  end_ : string
}.
End IngestReq.

(** [c.isspace()] for a character, read as a code point below 256. *)
Definition is_space (c : ascii) : bool :=
  let n := nat_of_ascii c in
  (Nat.leb 9 n && Nat.leb n 13) || (Nat.leb 28 n && Nat.leb n 32) ||
  Nat.eqb n 133 || Nat.eqb n 160.

(** [s.lstrip()], [s.rstrip()] and [s.strip()]. *)
Fixpoint lstrip (s : string) : string :=
  match s with
  | EmptyString => EmptyString
  | String c s' => if is_space c then lstrip s' else s
  end.

Fixpoint rstrip (s : string) : string :=
  match s with
  | EmptyString => EmptyString
  | String c s' =>
      match rstrip s' with
      | EmptyString => if is_space c then EmptyString else String c EmptyString
      | r => String c r
      end
  end.

Definition strip (s : string) : string := rstrip (lstrip s).

(** All characters of [s] are white space. *)
Fixpoint all_space (s : string) : bool :=
  match s with
  | EmptyString => true
  | String c s' => is_space c && all_space s'
  end.

(** What [/forecast] uses of pandas: [pd.read_csv(path,
    parse_dates=["timestamp"])] as a parser of the file's text,
    [len(fc)], [fc["timestamp"].astype(str).tolist()] and
    [fc[col].round(6).tolist()]. *)
Record Pandas : Type := {
  Frame : Type;
  read_csv : string -> Result Frame;
  frame_len : Frame -> Z;
  timestamps_str : Frame -> Result PyVal;
  rounded : string -> Frame -> Result PyVal
}.

Definition is_dict (v : PyVal) : bool :=
  match v with
  | PDict _ => true
  | _ => false
  end.

(** A path separator in a name. *)
Fixpoint has_slash (s : string) : bool :=
  match s with
  | EmptyString => false
  | String c s' => Ascii.eqb c "/" || has_slash s'
  end.

(** [p] is a file directly in the directory [dir]. *)
Definition directly_in (dir p : string) : Prop :=
  exists name, p = path_join dir name /\ has_slash name = false.

(** The four paths the [/decision] handler writes to itself for a
    request: the flag of its key, the payload file, the log, and the
    audit file of its target at some instant. *)
Definition own_path (L : Library) (req : DecisionReq) (p : string) : Prop :=
  (exists k, key_given (idempotency_key req) = Some k /\ p = idem_flag L k) \/
  p = payload_file \/
  p = log_file \/
  (exists t, p = audit_file (audit_id_of (strftime_compact t) (targetRU req))).

(** An event that writes nowhere else. *)
Definition own_event (L : Library) (req : DecisionReq) (ev : Event) : Prop :=
  match ev with
  | EvWrite p _ => own_path L req p
  | EvAppend p _ => own_path L req p
  | _ => True
  end.

(** An event that writes nothing. *)
Definition reads_only (ev : Event) : Prop :=
  match ev with
  | EvWrite _ _ => False
  | EvAppend _ _ => False
  | _ => True
  end.

(** The modules a [/decision] request goes through, in order. *)
Definition full_calls (req : DecisionReq) : list Collab :=
  [FetchPm; RunEtl; PredictNextWindow; Decide; BuildPolicy] ++
  (if dry_run req then [] else [PostPolicy]).

Section Endpoints.
Context {Ext : Type}.
Variable L : Library.
Variable P : Pipeline Ext.
Variable environ : gmap string string.
Variable Pd : Pandas.

(** The process environment while a request is served. *)
Variable env : gmap string string.

(** A pure library call inside the handler. *)
Definition lift {A} (r : Result A) : M Ext A :=
  match r with
  | Ok a => ret a
  | Raise e => raise e
  end.

(** [bool(os.getenv(name, "").strip())]. *)
Definition env_set (name : string) : bool :=
  truthy (PStr (strip (default "" (env !! name)))).

(** [@app.get("/healthz") def healthz()]. *)
Definition healthz : M Ext PyVal :=
  let* model_exists := path_exists (MODEL_PATH environ) in
  let* meta_exists := path_exists (META_PATH environ) in
  ret (PDict [("status", PStr "ok");
              ("model_exists", PBool model_exists);
              ("meta_exists", PBool meta_exists);
              ("pm_api_mode", PBool (env_set "PM_API_URL"));
              ("a1_url_set", PBool (env_set "A1_URL"))]).

(** [@app.post("/ingest_pm") def ingest_pm(req)]. *)
Definition ingest_pm (req : IngestReq.t) : M Ext PyVal :=
  let* raw_path :=
    call FetchPm (fetch_pm P (Some (IngestReq.start req))
                    (Some (IngestReq.end_ req))) in
  ret (PDict [("raw_path", PStr raw_path)]).

(** The truth value of [os.getenv("PM_API_URL")] in [/forecast]. *)
Definition pm_api_url_given : bool := truthy (py_opt_str (env !! "PM_API_URL")).

(** [@app.post("/forecast") def forecast(req)]. *)
Definition forecast (req : ForecastReq.t) : M Ext PyVal :=
  let* raw_path :=
    if pm_api_url_given
    then call FetchPm (fetch_pm P (ForecastReq.start req) (ForecastReq.end_ req))
    else call FetchPm (fetch_pm P None None) in
  let* feat_path := call RunEtl (run_etl P raw_path) in
  let* fcst_path :=
    call PredictNextWindow
      (predict_next_window P feat_path (MODEL_PATH environ) (META_PATH environ)
         "data/processed/forecast.csv") in
  let* text := read_text fcst_path in
  let* fc := lift (read_csv Pd text) in
  let* timestamps := lift (timestamps_str Pd fc) in
  let* p10 := lift (rounded Pd "p10" fc) in
  let* p50 := lift (rounded Pd "p50" fc) in
  let* p90 := lift (rounded Pd "p90" fc) in
  ret (PDict [("forecast_path", PStr fcst_path);
              ("points", PInt (frame_len Pd fc));
              ("timestamps", timestamps);
              ("p10", p10); ("p50", p50); ("p90", p90)]).

(** Every module of the pipeline leaves the file [p] in place once it
    is there. *)
Definition keeps_path (p : string) : Prop :=
  (forall a b w, is_Some (files w !! p) ->
     is_Some (files (snd (fetch_pm P a b w)) !! p)) /\
  (forall a w, is_Some (files w !! p) ->
     is_Some (files (snd (run_etl P a w)) !! p)) /\
  (forall a b c d w, is_Some (files w !! p) ->
     is_Some (files (snd (predict_next_window P a b c d w)) !! p)) /\
  (forall a b c d e w, is_Some (files w !! p) ->
     is_Some (files (snd (decide P a b c d e w)) !! p)) /\
  (forall a b c d w, is_Some (files w !! p) ->
     is_Some (files (snd (build_policy P a b c d w)) !! p)) /\
  (forall a w, is_Some (files w !! p) ->
     is_Some (files (snd (post_policy P a w)) !! p)).

(** Every module of the pipeline leaves the operating system's refusals
    as they are. *)
Definition keeps_faulty : Prop :=
  (forall a b w, faulty (snd (fetch_pm P a b w)) = faulty w) /\
  (forall a w, faulty (snd (run_etl P a w)) = faulty w) /\
  (forall a b c d w, faulty (snd (predict_next_window P a b c d w)) = faulty w) /\
  (forall a b c d e w, faulty (snd (decide P a b c d e w)) = faulty w) /\
  (forall a b c d w, faulty (snd (build_policy P a b c d w)) = faulty w) /\
  (forall a w, faulty (snd (post_policy P a w)) = faulty w).

End Endpoints.

(** ** More running instances *)

Module Probe.

(** A forecast file is a line of points; the text [bad] is no CSV. *)
Definition frames : Pandas :=
  {| Frame := list Z;
     read_csv := fun text =>
       if String.eqb text "bad" then Raise (Raised "ParserError")
       else Ok [1; 2; 3]%Z;
     frame_len := fun fc => Z.of_nat (length fc);
     timestamps_str := fun fc => Ok (PList (map (fun z => PStr (pretty z)) fc));
     rounded := fun col fc =>
       if String.eqb col "p10" || String.eqb col "p50" || String.eqb col "p90"
       then Ok (PList (map PInt fc))
       else Raise (Raised "KeyError") |}.

(** As [Demo.live], with a forecast on disk after the inference, and a raw
    path that tells which window was asked for. *)
Definition forecasting : Pipeline nat :=
  {| fetch_pm := fun a b w =>
       (Ok (match a, b with
            | None, None => "data/raw/synthetic.csv"
            | _, _ => "data/raw/window.csv"
            end), w);
     run_etl := run_etl Demo.live;
     predict_next_window := fun _ _ _ out w =>
       (Ok out, set_files (<[out := "csv"]> (files w)) w);
     decide := decide Demo.live;
     build_policy := build_policy Demo.live;
     post_policy := post_policy Demo.live |}.

(** As [Demo.live], but the push raises. *)
Definition unreachable : Pipeline nat :=
  {| fetch_pm := fetch_pm Demo.live;
     run_etl := run_etl Demo.live;
     predict_next_window := predict_next_window Demo.live;
     decide := decide Demo.live;
     build_policy := build_policy Demo.live;
     post_policy := fun _ w => (Raise (Raised "ConnectionError"), w) |}.

(** As [Demo.live], but the push returns nothing. *)
Definition silent : Pipeline nat :=
  {| fetch_pm := fetch_pm Demo.live;
     run_etl := run_etl Demo.live;
     predict_next_window := predict_next_window Demo.live;
     decide := decide Demo.live;
     build_policy := build_policy Demo.live;
     post_policy := fun _ w => (Ok PNone, w) |}.

Definition blank : string := "  ".

Definition env_blank : gmap string string := {[ "PM_API_URL" := blank ]}.

Definition env_lab : gmap string string := {[ "PM_API_URL" := "http://lab/pm" ]}.

Definition window_req : ForecastReq.t :=
  {| ForecastReq.minutes := 1440;
     ForecastReq.start := Some "2026-11-03T00:00:00Z";
     ForecastReq.end_ := Some "2026-11-03T12:00:00Z" |}.

Definition other_req : ForecastReq.t :=
  {| ForecastReq.minutes := 60;
     ForecastReq.start := None;
     ForecastReq.end_ := None |}.

Definition ingest_req : IngestReq.t :=
  {| IngestReq.start := "2026-11-03T00:00:00Z";
     IngestReq.end_ := "2026-11-03T12:00:00Z" |}.

(** A world where the flag of the key [abc] cannot be written. *)
Definition world_no_flag : World nat :=
  {| files := ∅; faulty := String.eqb (idem_flag Demo.lib "abc");
     refusal := fun _ => RefusedAfterOpen ""; now := Demo.noon; ext := 0 |}.


(** A world with the model file in place. *)
Definition world_model : World nat :=
  {| files := {[ "models/model.onnx" := "onnx" ]}; faulty := fun _ => false;
     refusal := fun _ => RefusedAtOpen; now := Demo.noon; ext := 0 |}.

(** A world where the model path cannot even be looked up. *)
Definition world_unsearchable : World nat :=
  {| files := ∅; faulty := String.eqb "models/model.onnx";
     refusal := fun _ => Unsearchable; now := Demo.noon; ext := 0 |}.

(** The fields of the answer of [/healthz], none if it raised. *)
Definition health_fields (env : gmap string string) (w : World nat)
    : list (string * PyVal) :=
  match fst (healthz ∅ env (init w)) with
  | Ok (PDict fields) => fields
  | _ => []
  end.

(** The states between the steps of a request, for any pipeline. *)
Definition after_push (P : Pipeline nat) (req : DecisionReq) (payload : PyVal)
    (w : World nat) : St nat :=
  snd (push_step Demo.lib P req payload (Demo.after_compute P req w)).

End Probe.

(** ** Reading a run, continued *)

Section Invariants.
Context {Ext : Type}.

(** [m] keeps a property of the world, whatever its outcome. *)
Definition preserves {A} (I : World Ext -> Prop) (m : M Ext A) : Prop :=
  forall s, I (world s) -> I (world (snd (m s))).

(** [m] calls the modules [cs] in this order and stops at the first
    that raises: the calls it made are a prefix of [cs], and all of [cs]
    when it returns. *)
Definition calls_within {A} (cs : list Collab) (m : M Ext A) : Prop :=
  forall s, exists done,
    calls (trace (snd (m s))) = calls (trace s) ++ done /\
    done `prefix_of` cs /\
    (forall a, fst (m s) = Ok a -> done = cs).

End Invariants.

Section Frames.
Context {Ext : Type}.
Variable P : Pipeline Ext.

(** Every module of the pipeline keeps the property [I] of the world. *)
Definition modules_keep (I : World Ext -> Prop) : Prop :=
  (forall a b w, I w -> I (snd (fetch_pm P a b w))) /\
  (forall a w, I w -> I (snd (run_etl P a w))) /\
  (forall a b c d w, I w -> I (snd (predict_next_window P a b c d w))) /\
  (forall a b c d e w, I w -> I (snd (decide P a b c d e w))) /\
  (forall a b c d w, I w -> I (snd (build_policy P a b c d w))) /\
  (forall a w, I w -> I (snd (post_policy P a w))).

(** The decision log starts with the text [base]. *)
Definition log_extends (base : string) (w : World Ext) : Prop :=
  exists more, files w !! log_file = Some (base +:+ more).

End Frames.


(** * Properties *)

Lemma calls_app tr1 tr2 : calls (tr1 ++ tr2) = calls tr1 ++ calls tr2.
Proof.
  induction tr1 as [|ev tr1 IH]; [reflexivity|].
  destruct ev; simpl; rewrite IH; reflexivity.
Qed.

Lemma writes_app tr1 tr2 : writes (tr1 ++ tr2) = writes tr1 ++ writes tr2.
Proof.
  induction tr1 as [|ev tr1 IH]; [reflexivity|].
  destruct ev; simpl; rewrite IH; reflexivity.
Qed.

(** ** Laws of the monad *)

Section Laws.
Context {Ext : Type}.
Implicit Types s : St Ext.

Lemma bind_ok {A B} (m : M Ext A) (k : A -> M Ext B) s a s1 :
  m s = (Ok a, s1) -> bind m k s = k a s1.
Proof. intros H. unfold bind. rewrite H. reflexivity. Qed.

Lemma bind_raise {A B} (m : M Ext A) (k : A -> M Ext B) s e s1 :
  m s = (Raise e, s1) -> bind m k s = (Raise e, s1).
Proof. intros H. unfold bind. rewrite H. reflexivity. Qed.

Lemma bind_ok_inv {A B} (m : M Ext A) (k : A -> M Ext B) s b s2 :
  bind m k s = (Ok b, s2) ->
  exists a s1, m s = (Ok a, s1) /\ k a s1 = (Ok b, s2).
Proof.
  unfold bind. destruct (m s) as [[a|e] s1]; intros H.
  - exists a, s1. split; [reflexivity | exact H].
  - discriminate H.
Qed.

Lemma bind_raise_inv {A B} (m : M Ext A) (k : A -> M Ext B) s e s2 :
  bind m k s = (Raise e, s2) ->
  m s = (Raise e, s2) \/ exists a s1, m s = (Ok a, s1) /\ k a s1 = (Raise e, s2).
Proof.
  unfold bind. destruct (m s) as [[a|e'] s1]; intros H.
  - right. exists a, s1. split; [reflexivity | exact H].
  - left. injection H as -> ->. reflexivity.
Qed.

End Laws.

(** ** Looking a path up *)

Section Lookup.
Context {Ext : Type}.
Implicit Types w : World Ext.

Lemma stat_refused_present w p :
  is_Some (files w !! p) -> stat_refused w p = false.
Proof. intros [text H]. unfold stat_refused. rewrite H. reflexivity. Qed.

Lemma stat_refused_clean w p : faulty w p = false -> stat_refused w p = false.
Proof.
  intros H. unfold stat_refused. rewrite H.
  destruct (files w !! p); reflexivity.
Qed.


End Lookup.

(** ** What a step adds to the trace *)

Section Emits.
Context {Ext : Type}.
Implicit Types s : St Ext.


Lemma emits_ret {A} good (a : A) : emits good (@ret Ext A a).
Proof. intros s. exists []. simpl. rewrite app_nil_r. auto. Qed.

Lemma emits_raise {A} good e : emits good (@raise Ext A e).
Proof. intros s. exists []. simpl. rewrite app_nil_r. auto. Qed.

Lemma emits_bind {A B} good (m : M Ext A) (k : A -> M Ext B) :
  emits good m -> (forall a, emits good (k a)) -> emits good (bind m k).
Proof.
  intros Hm Hk s. unfold bind.
  destruct (Hm s) as (evs1 & E1 & F1).
  destruct (m s) as [[a|e] s1]; simpl in *.
  - destruct (Hk a s1) as (evs2 & E2 & F2).
    exists (evs1 ++ evs2). rewrite E2, E1, app_assoc.
    split; [reflexivity | apply Forall_app; auto].
  - exists evs1. auto.
Qed.

Lemma emits_one {A} (good : Event -> Prop) (m : M Ext A) ev :
  good ev ->
  (forall s, trace (snd (m s)) = trace s \/ trace (snd (m s)) = trace s ++ [ev]) ->
  emits good m.
Proof.
  intros G H s. destruct (H s) as [E|E]; rewrite E.
  - exists []. rewrite app_nil_r. auto.
  - exists [ev]. auto.
Qed.

Lemma emits_mkdir good p : good (EvMkdir p) -> emits good (@mkdir_p Ext p).
Proof. intros G. apply (emits_one good _ _ G). intros s. right. reflexivity. Qed.

Lemma emits_exists good p : good (EvExists p) -> emits good (@path_exists Ext p).
Proof.
  intros G. apply (emits_one good _ _ G). intros s. unfold path_exists.
  destruct (stat_refused (world s) p); [left | right]; reflexivity.
Qed.

Lemma emits_now good : good EvNow -> emits good (@datetime_now Ext).
Proof. intros G. apply (emits_one good _ _ G). intros s. right. reflexivity. Qed.

Lemma emits_call {A} good c (f : World Ext -> Result A * World Ext) :
  good (EvCall c) -> emits good (call c f).
Proof.
  intros G. apply (emits_one good _ _ G). intros s. right.
  unfold call. destruct (f (world s)). reflexivity.
Qed.

Lemma emits_read good p : good (EvRead p) -> emits good (@read_text Ext p).
Proof.
  intros G. apply (emits_one good _ _ G). intros s. unfold read_text.
  destruct (faulty (world s) p); [left; reflexivity|].
  destruct (files (world s) !! p); [right | left]; reflexivity.
Qed.

Lemma emits_write good p text :
  good (EvWrite p text) -> emits good (@write_text Ext p text).
Proof.
  intros G. apply (emits_one good _ _ G). intros s. unfold write_text.
  destruct (faulty (world s) p); [|right; reflexivity].
  destruct (refusal (world s) p); left; reflexivity.
Qed.

Lemma emits_append good p text :
  good (EvAppend p text) -> emits good (@append_text Ext p text).
Proof.
  intros G. apply (emits_one good _ _ G). intros s. unfold append_text.
  destruct (faulty (world s) p); [left | right]; reflexivity.
Qed.

Lemma emits_py_get good v k : emits good (@py_get Ext v k).
Proof. destruct v; simpl; auto using @emits_ret, @emits_raise. Qed.


Lemma computing_quiet evs :
  Forall computing evs -> writes evs = [] /\ ~ In PostPolicy (calls evs).
Proof.
  induction 1 as [|ev evs G _ [IHw IHc]]; [simpl; auto|].
  destruct ev; simpl in *; try contradiction; auto.
  split; [assumption | intros [E|E]; [congruence | auto]].
Qed.

Lemma compute_steps_emits L P environ req :
  emits computing (@compute_steps Ext L P environ req).
Proof.
  unfold compute_steps, forecast_step, decision_step, policy_step.
  repeat (first
    [ apply emits_bind; [|intros ?]
    | apply emits_call; simpl; congruence
    | apply emits_read; exact I
    | apply emits_ret
    | apply emits_raise
    | match goal with |- emits _ (match ?x with _ => _ end) => destruct x end ]).
Qed.

End Emits.

(** ** Step 5 in closed form *)

Section Steps.
Context {Ext : Type}.
Variable L : Library.
Variable P : Pipeline Ext.
Variable environ : gmap string string.
Implicit Types s : St Ext.


Lemma audit_step_ok req dd payload pr s :
  faulty (world s) (audit_file (audit_id_at req s)) = false ->
  faulty (world s) log_file = false ->
  audit_step L req (PDict dd) payload (PDict pr) s =
    (Ok (response (audit_id_at req s) (PDict dd) payload (PDict pr)),
     {| world :=
          set_files
            (<[log_file :=
                 default "" (<[audit_file (audit_id_at req s) :=
                                 audit_text L req s (PDict dd) payload (PDict pr)]>
                               (files (world s)) !! log_file)
                 +:+ log_text L req s dd pr]>
               (<[audit_file (audit_id_at req s) :=
                    audit_text L req s (PDict dd) payload (PDict pr)]>
                  (files (world s))))
            (world s);
        trace :=
          trace s ++
          [EvNow; EvMkdir audit_dir;
           EvWrite (audit_file (audit_id_at req s))
             (audit_text L req s (PDict dd) payload (PDict pr));
           EvMkdir "logs";
           EvAppend log_file (log_text L req s dd pr)] |}).
Proof.
  intros Ha Hl.
  unfold audit_step, bind, datetime_now, mkdir_p, emit, write_text,
    append_text, py_get, ret; simpl.
  fold (audit_id_at req s). rewrite Ha. simpl. rewrite Hl.
  unfold audit_text, log_text, set_files; simpl.
  rewrite <- !app_assoc. reflexivity.
Qed.


(** A response of steps 1 to 5 is the four-field object. *)
Lemma audit_step_shape req decision_dict payload push_res s r s' :
  audit_step L req decision_dict payload push_res s = (Ok r, s') ->
  r = response (audit_id_at req s) decision_dict payload push_res.
Proof.
  unfold audit_step. intros H.
  apply bind_ok_inv in H. destruct H as (t & s1 & Hnow & H).
  injection Hnow as <- <-.
  repeat (apply bind_ok_inv in H; destruct H as (? & ? & _ & H)).
  injection H as <- _. reflexivity.
Qed.

End Steps.

(** ** The endpoint *)

Section Endpoint.
Context {Ext : Type}.
Variable L : Library.
Variable P : Pipeline Ext.
Variable environ : gmap string string.
Implicit Types s : St Ext.
Implicit Types w : World Ext.

Lemma pipeline_shape req s r s' :
  pipeline L P environ req s = (Ok r, s') ->
  exists audit_id decision_dict payload push_res,
    r = response audit_id decision_dict payload push_res.
Proof.
  unfold pipeline. intros H.
  apply bind_ok_inv in H. destruct H as ([dd payload] & s1 & _ & H).
  apply bind_ok_inv in H. destruct H as (pr & s2 & _ & H).
  apply audit_step_shape in H. eauto.
Qed.

Lemma response_not_duplicate audit_id decision_dict payload push_res k :
  response audit_id decision_dict payload push_res <> duplicate_response k.
Proof. discriminate. Qed.


(** The first request with a key leaves the mark that [C1] relies on. *)
Lemma first_use_marks_key req s k :
  key_given (idempotency_key req) = Some k ->
  files (world s) !! idem_flag L k = None ->
  faulty (world s) (idem_flag L k) = false ->
  exists s',
    idempotency_check L req s = (Ok None, s') /\
    files (world s') !! idem_flag L k = Some (isoformat (now (world s))) /\
    writes (trace s') = writes (trace s) ++ [idem_flag L k].
Proof.
  intros Hk Hnone Hf. eexists. split.
  - unfold idempotency_check. rewrite Hk.
    unfold bind, mkdir_p, emit, path_exists, datetime_now, write_text; simpl.
    rewrite (stat_refused_clean _ _ Hf).
    rewrite bool_decide_eq_false_2 by (rewrite Hnone; intros [? ?]; discriminate).
    simpl. rewrite Hf. reflexivity.
  - simpl. rewrite lookup_insert_eq. split; [reflexivity|].
    rewrite !writes_app. simpl. rewrite !app_nil_r. reflexivity.
Qed.

(** C9: the handler never reads [req.minutes]: two requests that differ
    only there have the same outcome (answer or exception), the same
    final world (files, audit entry, log, control plane) and the same
    trace (calls, push, writes), from every state. *)
Theorem minutes_never_read req1 req2 s :
  same_but_minutes req1 req2 ->
  decision L P environ req1 s = decision L P environ req2 s.
Proof.
  intros (Hl & Hh & Hd & Hc & Ht & He & Hf & Hr & Hk).
  destruct req1 as [m1 l1 h1 d1 c1 t1 e1 f1 r1 k1].
  destruct req2 as [m2 l2 h2 d2 c2 t2 e2 f2 r2 k2].
  simpl in *. subst.
  unfold decision, idempotency_check, pipeline, compute_steps, decision_step,
    policy_step, push_step, audit_step, request_dict, audit_entry; simpl.
  reflexivity.
Qed.

Lemma audit_step_key_irrelevant req k1 k2 decision_dict payload push_res s :
  fst (audit_step L (with_key k1 req) decision_dict payload push_res s) =
  fst (audit_step L (with_key k2 req) decision_dict payload push_res s).
Proof.
  unfold audit_step, bind, datetime_now, mkdir_p, emit, write_text,
    append_text; simpl.
  destruct (faulty (world s) _); [destruct (refusal (world s) _); reflexivity|].
  simpl.
  destruct decision_dict; simpl; try reflexivity.
  destruct push_res; simpl; try reflexivity.
  destruct (faulty (world s) log_file); reflexivity.
Qed.

(** C10: an empty-string key is no key. Step 0 does nothing for it, as
    for a missing key (no flag looked up, none written, state and trace
    unchanged), the handler runs steps 1 to 5, the answer is never the
    duplicate object, from whatever state earlier requests left, and it
    is the answer the same request without a key gets. *)
Theorem empty_key_is_no_key req s :
  idempotency_check L (with_key (Some "") req) s = (Ok None, s) /\
  idempotency_check L (with_key None req) s = (Ok None, s) /\
  decision L P environ (with_key (Some "") req) s =
    pipeline L P environ (with_key (Some "") req) s /\
  (forall k, fst (decision L P environ (with_key (Some "") req) s)
             <> Ok (duplicate_response k)) /\
  fst (decision L P environ (with_key (Some "") req) s) =
    fst (decision L P environ (with_key None req) s).
Proof.
  split; [reflexivity|]. split; [reflexivity|]. split; [reflexivity|]. split.
  - intros k H.
    change (decision L P environ (with_key (Some "") req) s)
      with (pipeline L P environ (with_key (Some "") req) s) in H.
    destruct (pipeline L P environ (with_key (Some "") req) s) as [r s'] eqn:E.
    simpl in H. subst r.
    apply pipeline_shape in E. destruct E as (a & d & p & r & E).
    symmetry in E. revert E. apply response_not_duplicate.
  - change (decision L P environ (with_key (Some "") req) s)
      with (pipeline L P environ (with_key (Some "") req) s).
    change (decision L P environ (with_key None req) s)
      with (pipeline L P environ (with_key None req) s).
    unfold pipeline, bind.
    change (compute_steps L P environ (with_key (Some "") req))
      with (compute_steps L P environ req).
    change (compute_steps L P environ (with_key None req))
      with (compute_steps L P environ req).
    destruct (compute_steps L P environ req s) as [[[dd payload]|e] s1];
      [|reflexivity].
    change (push_step L P (with_key (Some "") req) payload)
      with (push_step L P req payload).
    change (push_step L P (with_key None req) payload)
      with (push_step L P req payload).
    destruct (push_step L P req payload s1) as [[pr|e] s2]; [|reflexivity].
    apply audit_step_key_irrelevant.
Qed.

End Endpoint.

Section Endpoint2.
Context {Ext : Type}.
Variable L : Library.
Variable P : Pipeline Ext.
Variable environ : gmap string string.
Implicit Types s : St Ext.
Implicit Types w : World Ext.

Lemma emits_weaken {A} (good good' : Event -> Prop) (m : M Ext A) :
  (forall ev, good ev -> good' ev) -> emits good m -> emits good' m.
Proof.
  intros Hw Hm s. destruct (Hm s) as (evs & E & F).
  exists evs. split; [exact E|]. eapply Forall_impl; eauto.
Qed.






(** A step 5 that returns had a dict decision, a dict push result and
    two writes that went through. *)
Lemma audit_step_ok_inv req decision_dict payload push_res s r s' :
  audit_step L req decision_dict payload push_res s = (Ok r, s') ->
  exists dd pr,
    decision_dict = PDict dd /\ push_res = PDict pr /\
    faulty (world s) (audit_file (audit_id_at req s)) = false /\
    faulty (world s) log_file = false.
Proof.
  unfold audit_step, bind, datetime_now, mkdir_p, emit, write_text,
    append_text; simpl. fold (audit_id_at req s).
  destruct (faulty (world s) (audit_file (audit_id_at req s)));
    [destruct (refusal (world s) _); discriminate|].
  simpl.
  destruct decision_dict; simpl; try discriminate.
  destruct push_res; simpl; try discriminate.
  destruct (faulty (world s) log_file); [discriminate|].
  intros _. eauto 10.
Qed.

(** Step 5 changes two files, the audit entry and the log. *)
Lemma audit_step_frame req decision_dict payload push_res s r s' p :
  audit_step L req decision_dict payload push_res s = (Ok r, s') ->
  p <> audit_file (audit_id_at req s) -> p <> log_file ->
  files (world s') !! p = files (world s) !! p.
Proof.
  intros H Hp1 Hp2.
  destruct (audit_step_ok_inv _ _ _ _ _ _ _ H) as (dd & pr & -> & -> & Ha & Hl).
  rewrite (audit_step_ok L req dd payload pr s Ha Hl) in H.
  injection H as _ <-. simpl.
  rewrite lookup_insert_ne by congruence.
  rewrite lookup_insert_ne by congruence.
  reflexivity.
Qed.

Lemma audit_step_entry req decision_dict payload push_res s r s' :
  audit_step L req decision_dict payload push_res s = (Ok r, s') ->
  files (world s') !! audit_file (audit_id_at req s) =
    Some (audit_text L req s decision_dict payload push_res).
Proof.
  intros H.
  destruct (audit_step_ok_inv _ _ _ _ _ _ _ H) as (dd & pr & -> & -> & Ha & Hl).
  rewrite (audit_step_ok L req dd payload pr s Ha Hl) in H.
  injection H as _ <-. simpl.
  rewrite lookup_insert_ne by discriminate.
  apply lookup_insert_eq.
Qed.

Lemma payload_file_not_audit audit_id : payload_file <> audit_file audit_id.
Proof. discriminate. Qed.

Lemma idempotency_check_early req s r s' :
  idempotency_check L req s = (Ok (Some r), s') ->
  exists k, r = duplicate_response k.
Proof.
  unfold idempotency_check.
  destruct (key_given (idempotency_key req)) as [k|]; [|discriminate].
  unfold bind, mkdir_p, emit, path_exists, datetime_now, write_text; simpl.
  destruct (stat_refused _ _); [discriminate|].
  destruct (bool_decide _); simpl.
  - intros H. injection H as <- _. eauto.
  - destruct (faulty (world s) _); [destruct (refusal (world s) _)|];
      discriminate.
Qed.


(** C6: when a request is answered and is no duplicate, the audit file
    named by the answer's [audit_id] holds the serialised entry whose
    [decision] and [policy_payload] are those of the answer. *)
Theorem audit_entry_matches_response req w r s' :
  decision L P environ req (init w) = (Ok r, s') ->
  (forall k, r <> duplicate_response k) ->
  exists audit_id answer entry decision_dict payload,
    r = PDict answer /\
    dict_lookup "audit_id" answer = Some (PStr audit_id) /\
    files (world s') !! audit_file audit_id = Some (json_dumps_indent L (PDict entry)) /\
    dict_lookup "decision" entry = Some decision_dict /\
    dict_lookup "decision" answer = Some decision_dict /\
    dict_lookup "policy_payload" entry = Some payload /\
    dict_lookup "policy_payload" answer = Some payload.
Proof.
  intros H Hnd. unfold decision in H.
  apply bind_ok_inv in H. destruct H as ([r0|] & s0 & H0 & H).
  { injection H as <- _. apply idempotency_check_early in H0.
    destruct H0 as [k ->]. destruct (Hnd k eq_refl). }
  unfold pipeline in H.
  apply bind_ok_inv in H. destruct H as ([dd payload] & s1 & _ & H).
  apply bind_ok_inv in H. destruct H as (pr & s2 & _ & H).
  pose proof (audit_step_shape _ _ _ _ _ _ _ _ H) as ->.
  pose proof (audit_step_entry _ _ _ _ _ _ _ H) as Hfile.
  eexists _, _, _, dd, payload.
  split; [reflexivity|]. split; [reflexivity|].
  split; [exact Hfile|]. repeat split; reflexivity.
Qed.

End Endpoint2.

(** ** Writes of a whole request *)

Section Accounting.
Context {Ext : Type}.
Variable L : Library.
Variable P : Pipeline Ext.
Variable environ : gmap string string.
Implicit Types s : St Ext.
Implicit Types w : World Ext.

(** A step 0 that lets the request through wrote the flag of its key,
    if it has one, and nothing else. *)
Lemma idempotency_check_pass req s s0 :
  idempotency_check L req s = (Ok None, s0) ->
  writes (trace s0) = writes (trace s) ++ guard_writes L req /\
  calls (trace s0) = calls (trace s) /\
  (forall k, key_given (idempotency_key req) = Some k ->
     files (world s0) !! idem_flag L k = Some (isoformat (now (world s)))).
Proof.
  unfold idempotency_check, guard_writes.
  destruct (key_given (idempotency_key req)) as [k|].
  - unfold bind, mkdir_p, emit, path_exists, datetime_now, write_text; simpl.
    destruct (stat_refused _ _); [discriminate|].
    destruct (bool_decide _); simpl; [discriminate|].
    destruct (faulty (world s) (idem_flag L k));
      [destruct (refusal (world s) (idem_flag L k)); discriminate|].
    intros H. injection H as <-. simpl.
    rewrite !writes_app, !calls_app. simpl. rewrite !app_nil_r.
    repeat split. intros k' E. injection E as <-. apply lookup_insert_eq.
  - intros H. injection H as <-. rewrite app_nil_r.
    repeat split. discriminate.
Qed.

Lemma compute_steps_quiet req s r s1 :
  compute_steps L P environ req s = (r, s1) ->
  writes (trace s1) = writes (trace s) /\
  (~ In PostPolicy (calls (trace s)) -> ~ In PostPolicy (calls (trace s1))).
Proof.
  intros H. destruct (compute_steps_emits L P environ req s) as (evs & E & F).
  rewrite H in E. simpl in E. rewrite E, writes_app, calls_app.
  destruct (computing_quiet evs F) as [Hw Hc]. rewrite Hw, app_nil_r.
  split; [reflexivity|]. intros Hs Hin. apply in_app_or in Hin. tauto.
Qed.

Lemma push_step_writes req payload s r s2 :
  push_step L P req payload s = (Ok r, s2) ->
  writes (trace s2) = writes (trace s) ++ push_writes req.
Proof.
  unfold push_step, push_writes. destruct (dry_run req).
  - unfold bind, mkdir_p, emit, write_text; simpl.
    destruct (faulty (world s) payload_file);
      [destruct (refusal (world s) payload_file); discriminate|].
    intros H. injection H as _ <-. simpl.
    rewrite !writes_app. simpl. rewrite app_nil_r. reflexivity.
  - unfold call. destruct (post_policy P payload (world s)) as [r' w'].
    intros H. injection H as _ <-. simpl.
    rewrite writes_app. reflexivity.
Qed.

Lemma filter_audit_flag req :
  List.filter is_audit_path (guard_writes L req) = [] /\
  List.filter (String.eqb log_file) (guard_writes L req) = [].
Proof. unfold guard_writes. destruct (key_given _); split; reflexivity. Qed.

Lemma filter_audit_push req :
  List.filter is_audit_path (push_writes req) = [] /\
  List.filter (String.eqb log_file) (push_writes req) = [].
Proof. unfold push_writes. destruct (dry_run req); split; reflexivity. Qed.

Lemma is_audit_path_audit_file audit_id : is_audit_path (audit_file audit_id) = true.
Proof. reflexivity. Qed.

Lemma log_file_not_audit audit_id : String.eqb log_file (audit_file audit_id) = false.
Proof. reflexivity. Qed.

(** C2, as the code has it: a request that is no duplicate and reaches
    step 5 (steps 1 to 3 returned, and step 4 returned a push result,
    whichever: the dry-run result, or whatever [post_policy] answered,
    sent or not) is answered and has written exactly one audit entry and
    appended exactly one log line, when the decision and the push result
    are dicts and the two writes go through. *)
Theorem one_audit_entry_per_dispatch req w s0 dd payload s1 pr s2 :
  idempotency_check L req (init w) = (Ok None, s0) ->
  compute_steps L P environ req s0 = (Ok (PDict dd, payload), s1) ->
  push_step L P req payload s1 = (Ok (PDict pr), s2) ->
  faulty (world s2) (audit_file (audit_id_at req s2)) = false ->
  faulty (world s2) log_file = false ->
  exists s3,
    decision L P environ req (init w) =
      (Ok (response (audit_id_at req s2) (PDict dd) payload (PDict pr)), s3) /\
    writes (trace s3) =
      guard_writes L req ++ push_writes req ++
      [audit_file (audit_id_at req s2); log_file] /\
    audit_writes (trace s3) = [audit_file (audit_id_at req s2)] /\
    log_appends (trace s3) = [log_file] /\
    files (world s3) !! audit_file (audit_id_at req s2) =
      Some (audit_text L req s2 (PDict dd) payload (PDict pr)) /\
    files (world s3) !! log_file =
      Some (default "" (files (world s2) !! log_file) +:+ log_text L req s2 dd pr).
Proof.
  intros H0 H1 H2 Ha Hl.
  pose proof (audit_step_ok L req dd payload pr s2 Ha Hl) as H3.
  eexists. split.
  { unfold decision. rewrite (bind_ok _ _ _ _ _ H0).
    unfold pipeline. rewrite (bind_ok _ _ _ _ _ H1).
    rewrite (bind_ok _ _ _ _ _ H2). exact H3. }
  destruct (idempotency_check_pass _ _ _ H0) as (W0 & _ & _).
  destruct (compute_steps_quiet _ _ _ _ H1) as (W1 & _).
  pose proof (push_step_writes _ _ _ _ _ H2) as W2.
  simpl in W0.
  assert (writes (trace s2 ++
            [EvNow; EvMkdir audit_dir;
             EvWrite (audit_file (audit_id_at req s2))
               (audit_text L req s2 (PDict dd) payload (PDict pr));
             EvMkdir "logs"; EvAppend log_file (log_text L req s2 dd pr)]) =
          guard_writes L req ++ push_writes req ++
          [audit_file (audit_id_at req s2); log_file]) as W3.
  { rewrite writes_app, W2, W1, W0, <- app_assoc. reflexivity. }
  simpl. split; [exact W3|].
  unfold audit_writes, log_appends. rewrite W3.
  rewrite !List.filter_app.
  destruct (filter_audit_flag req) as [-> ->].
  destruct (filter_audit_push req) as [-> ->].
  split; [reflexivity|]. split; [reflexivity|]. split.
  - rewrite lookup_insert_ne by discriminate. apply lookup_insert_eq.
  - rewrite lookup_insert_eq. rewrite lookup_insert_ne by discriminate.
    reflexivity.
Qed.


End Accounting.

(** ** Timestamps and audit identifiers *)

Lemma digit_inj a b : digit a = digit b -> (a mod 10 = b mod 10)%Z.
Proof.
  unfold digit. intros H. apply (f_equal nat_of_ascii) in H.
  pose proof (Z.mod_pos_bound a 10 eq_refl) as Ba.
  pose proof (Z.mod_pos_bound b 10 eq_refl) as Bb.
  rewrite !nat_ascii_embedding in H by lia. lia.
Qed.

Lemma pad2_inj a b :
  (0 <= a < 100)%Z -> (0 <= b < 100)%Z ->
  digit (a / 10) = digit (b / 10) -> digit a = digit b -> a = b.
Proof.
  intros Ha Hb H1 H0. apply digit_inj in H1, H0.
  Z.div_mod_to_equations. lia.
Qed.

Lemma pad4_inj a b :
  (0 <= a < 10000)%Z -> (0 <= b < 10000)%Z ->
  digit (a / 1000) = digit (b / 1000) -> digit (a / 100) = digit (b / 100) ->
  digit (a / 10) = digit (b / 10) -> digit a = digit b -> a = b.
Proof.
  intros Ha Hb H3 H2 H1 H0. apply digit_inj in H3, H2, H1, H0.
  assert (a / 1000 = a / 10 / 10 / 10)%Z as Ea
    by (rewrite !Z.div_div by lia; reflexivity).
  assert (b / 1000 = b / 10 / 10 / 10)%Z as Eb
    by (rewrite !Z.div_div by lia; reflexivity).
  assert (a / 100 = a / 10 / 10)%Z as Ea'
    by (rewrite !Z.div_div by lia; reflexivity).
  assert (b / 100 = b / 10 / 10)%Z as Eb'
    by (rewrite !Z.div_div by lia; reflexivity).
  rewrite Ea, Eb in H3. rewrite Ea', Eb' in H2. clear Ea Eb Ea' Eb'.
  Z.div_mod_to_equations. lia.
Qed.

Lemma string_length_app (s t : string) :
  String.length (s +:+ t) = (String.length s + String.length t)%nat.
Proof. induction s as [|c s IH]; simpl; [reflexivity | rewrite IH; reflexivity]. Qed.

Lemma string_app_inv_tail (s1 s2 t : string) : s1 +:+ t = s2 +:+ t -> s1 = s2.
Proof.
  revert s2. induction s1 as [|c s1 IH]; intros [|c2 s2] H.
  - reflexivity.
  - apply (f_equal String.length) in H.
    rewrite !string_length_app in H. simpl in H. lia.
  - apply (f_equal String.length) in H.
    rewrite !string_length_app in H. simpl in H. lia.
  - simpl in H. injection H as -> H. f_equal. apply IH. exact H.
Qed.

(** The compact timestamp tells whole seconds apart, and only those. *)
Lemma strftime_compact_inj t1 t2 :
  dt_valid t1 -> dt_valid t2 ->
  strftime_compact t1 = strftime_compact t2 -> dt_seconds t1 = dt_seconds t2.
Proof.
  intros (Hy1 & Hm1 & Hd1 & Hh1 & Hi1 & Hs1 & _) (Hy2 & Hm2 & Hd2 & Hh2 & Hi2 & Hs2 & _).
  unfold strftime_compact, pad4, pad2; simpl. intros H.
  injection H as Y3 Y2 Y1 Y0 M1 M0 D1 D0 H1 H0 I1 I0 S1 S0.
  unfold dt_seconds.
  rewrite (pad4_inj (year t1) (year t2)) by (assumption || lia).
  rewrite (pad2_inj (month t1) (month t2)) by (assumption || lia).
  rewrite (pad2_inj (day t1) (day t2)) by (assumption || lia).
  rewrite (pad2_inj (hour t1) (hour t2)) by (assumption || lia).
  rewrite (pad2_inj (minute t1) (minute t2)) by (assumption || lia).
  rewrite (pad2_inj (second t1) (second t2)) by (assumption || lia).
  reflexivity.
Qed.

Lemma strftime_compact_seconds t1 t2 :
  dt_seconds t1 = dt_seconds t2 -> strftime_compact t1 = strftime_compact t2.
Proof.
  unfold dt_seconds, strftime_compact. intros H.
  injection H as -> -> -> -> -> ->. reflexivity.
Qed.

Lemma audit_id_of_inj t1 t2 target1 target2 :
  dt_valid t1 -> dt_valid t2 ->
  audit_id_of (strftime_compact t1) target1 =
    audit_id_of (strftime_compact t2) target2 ->
  dt_seconds t1 = dt_seconds t2 /\ target1 = target2.
Proof.
  intros V1 V2 H. unfold audit_id_of in H.
  assert (strftime_compact t1 = strftime_compact t2 /\
          target1 +:+ "-a87" = target2 +:+ "-a87") as [Hts Htg].
  { revert H. unfold strftime_compact, pad4, pad2; simpl. intros H.
    injection H as -> -> -> -> -> -> -> -> -> -> -> -> -> -> H.
    split; [reflexivity | exact H]. }
  split; [apply strftime_compact_inj; assumption|].
  eapply string_app_inv_tail; eassumption.
Qed.

Lemma audit_file_inj a b : audit_file a = audit_file b -> a = b.
Proof.
  unfold audit_file, path_join, audit_dir. simpl. intros H.
  injection H as H. eapply string_app_inv_tail; eassumption.
Qed.

Section AuditStore.
Context {Ext : Type}.
Variable L : Library.
Implicit Types s : St Ext.

(** C7, as the code has it: the [audit_id] is the timestamp cut to whole
    seconds, the target and a fixed suffix. An entry written for the
    second [t1] and the target [target1] survives step 5 of any later
    request that differs from it in the second or in the target: the two
    identifiers differ, the earlier file keeps its text and the new
    entry is in a file of its own. *)
Theorem audit_entry_kept_across_seconds_or_targets
    req decision_dict payload push_res s r s' t1 target1 text :
  dt_valid t1 -> dt_valid (now (world s)) ->
  dt_seconds t1 <> dt_seconds (now (world s)) \/ target1 <> targetRU req ->
  files (world s) !! audit_file (audit_id_of (strftime_compact t1) target1) =
    Some text ->
  audit_step L req decision_dict payload push_res s = (Ok r, s') ->
  audit_id_of (strftime_compact t1) target1 <> audit_id_at req s /\
  files (world s') !! audit_file (audit_id_of (strftime_compact t1) target1) =
    Some text /\
  files (world s') !! audit_file (audit_id_at req s) =
    Some (audit_text L req s decision_dict payload push_res).
Proof.
  intros V1 V2 Hdiff Hold H.
  assert (audit_id_of (strftime_compact t1) target1 <> audit_id_at req s) as Hne.
  { intros E. apply audit_id_of_inj in E; try assumption.
    destruct E as [E1 E2]. destruct Hdiff; contradiction. }
  split; [exact Hne|]. split.
  - rewrite (audit_step_frame L req _ _ _ _ _ _ _ H); [exact Hold | |discriminate].
    intros E. apply audit_file_inj in E. contradiction.
  - eapply audit_step_entry. exact H.
Qed.

(** Step 0 is the check followed by the set. *)
Lemma guard_steps_in_sequence req k s :
  key_given (idempotency_key req) = Some k ->
  idempotency_check L req s =
    (let* pc := guard_step L k AtCheck in
     let* pc' := guard_step L k pc in
     ret (guard_outcome k pc')) s.
Proof.
  intros Hk. unfold idempotency_check. rewrite Hk.
  unfold guard_step, bind, mkdir_p, emit, path_exists, datetime_now,
    write_text, ret; simpl.
  destruct (stat_refused _ _); [reflexivity|].
  destruct (bool_decide _); simpl; [reflexivity|].
  destruct (faulty (world s) (idem_flag L k));
    [destruct (refusal (world s) (idem_flag L k))|]; reflexivity.
Qed.

(** Two requests with one key whose checks both run before either set:
    both find no flag and both pass. *)
Lemma check_then_set_races k (w : World Ext) :
  files w !! idem_flag L k = None ->
  faulty w (idem_flag L k) = false ->
  exists s',
    interleave L k k [false; true; false; true] (AtCheck, AtCheck) (init w) =
      (Ok (Passed, Passed), s') /\
    writes (trace s') = [idem_flag L k; idem_flag L k].
Proof.
  intros Hnone Hf. eexists. split.
  - unfold interleave, guard_step, bind, mkdir_p, emit, path_exists,
      datetime_now, write_text, ret, init; simpl.
    repeat (first
      [ rewrite (stat_refused_clean w _ Hf)
      | rewrite bool_decide_eq_false_2
          by (rewrite Hnone; intros [? ?]; discriminate)
      | rewrite Hf
      | progress simpl ]).
    reflexivity.
  - reflexivity.
Qed.

End AuditStore.

(** ** The properties on the running instance *)



(** The dry run of the instance is answered, so the second half of [C3]
    is about a run that exists. *)
Lemma dry_run_demo_answered :
  fst (Demo.run Demo.live Demo.req_dry Demo.world0) =
    Ok (response "20261103T120000Z-RU_001-a87" Demo.hold_decision
          (Demo.payload_of Demo.hold_decision "RU_001" 30 0.8%float)
          dry_run_result) /\
  ext (world (snd (Demo.run Demo.live Demo.req_dry Demo.world0))) = 0%nat.
Proof. split; vm_compute; reflexivity. Qed.

Lemma audit_entry_matches_response_demo :
  exists audit_id answer entry decision_dict payload,
    Demo.answer (Demo.run Demo.live Demo.req_abc Demo.world0) = PDict answer /\
    dict_lookup "audit_id" answer = Some (PStr audit_id) /\
    files (world (snd (Demo.run Demo.live Demo.req_abc Demo.world0)))
      !! audit_file audit_id =
      Some (json_dumps_indent Demo.lib (PDict entry)) /\
    dict_lookup "decision" entry = Some decision_dict /\
    dict_lookup "decision" answer = Some decision_dict /\
    dict_lookup "policy_payload" entry = Some payload /\
    dict_lookup "policy_payload" answer = Some payload.
Proof.
  apply (audit_entry_matches_response Demo.lib Demo.live ∅ Demo.req_abc
           Demo.world0).
  - vm_compute. reflexivity.
  - intros k. vm_compute. discriminate.
Defined.

Lemma one_audit_entry_per_dispatch_demo :
  exists s3,
    decision Demo.lib Demo.live ∅ Demo.req_abc (init Demo.world0) =
      (Ok (response (audit_id_at Demo.req_abc (Demo.after_push Demo.live Demo.req_abc Demo.world0))
             (PDict Demo.hold_fields)
             (Demo.payload_of Demo.hold_decision "RU_001" 30 0.8%float)
             (PDict Demo.sent_fields)), s3) /\
    writes (trace s3) =
      guard_writes Demo.lib Demo.req_abc ++ push_writes Demo.req_abc ++
      [audit_file (audit_id_at Demo.req_abc
                     (Demo.after_push Demo.live Demo.req_abc Demo.world0));
       log_file] /\
    audit_writes (trace s3) =
      [audit_file (audit_id_at Demo.req_abc
                     (Demo.after_push Demo.live Demo.req_abc Demo.world0))] /\
    log_appends (trace s3) = [log_file] /\
    files (world s3) !! audit_file (audit_id_at Demo.req_abc
                          (Demo.after_push Demo.live Demo.req_abc Demo.world0)) =
      Some (audit_text Demo.lib Demo.req_abc
              (Demo.after_push Demo.live Demo.req_abc Demo.world0)
              (PDict Demo.hold_fields)
              (Demo.payload_of Demo.hold_decision "RU_001" 30 0.8%float)
              (PDict Demo.sent_fields)) /\
    files (world s3) !! log_file =
      Some (default "" (files (world (Demo.after_push Demo.live Demo.req_abc
                                        Demo.world0)) !! log_file)
            +:+ log_text Demo.lib Demo.req_abc
                  (Demo.after_push Demo.live Demo.req_abc Demo.world0)
                  Demo.hold_fields Demo.sent_fields).
Proof.
  apply (one_audit_entry_per_dispatch Demo.lib Demo.live ∅ Demo.req_abc
           Demo.world0 (Demo.after_check Demo.req_abc Demo.world0)
           Demo.hold_fields
           (Demo.payload_of Demo.hold_decision "RU_001" 30 0.8%float)
           (Demo.after_compute Demo.live Demo.req_abc Demo.world0)
           Demo.sent_fields
           (Demo.after_push Demo.live Demo.req_abc Demo.world0)).
  - vm_compute. reflexivity.
  - vm_compute. reflexivity.
  - vm_compute. reflexivity.
  - vm_compute. reflexivity.
  - vm_compute. reflexivity.
Defined.

(** A request without a key whose forecast the decision module rejects
    is no duplicate, and leaves no audit entry and no log line. *)
Lemma rejected_request_has_no_audit_entry :
  fst (Demo.run Demo.rejecting default_req Demo.world0) =
    Raise (Raised "InvalidForecast") /\
  (forall k, fst (Demo.run Demo.rejecting default_req Demo.world0) <>
             Ok (duplicate_response k)) /\
  length (audit_writes (trace (snd (Demo.run Demo.rejecting default_req
                                      Demo.world0)))) = 0%nat /\
  length (log_appends (trace (snd (Demo.run Demo.rejecting default_req
                                     Demo.world0)))) = 0%nat /\
  files (world (snd (Demo.run Demo.rejecting default_req Demo.world0))) = ∅.
Proof.
  split; [vm_compute; reflexivity|].
  split; [intros k; vm_compute; discriminate|].
  repeat split; vm_compute; reflexivity.
Qed.

(** The same rejection for a request with the key [abc]: the flag of the
    key is on disk afterwards, and the retry with the key is turned away
    as a duplicate. *)
Lemma rejected_request_keeps_key_marked :
  fst (Demo.run Demo.rejecting Demo.req_abc Demo.world0) =
    Raise (Raised "InvalidForecast") /\
  files Demo.world0 !! idem_flag Demo.lib "abc" = None /\
  files (world (snd (Demo.run Demo.rejecting Demo.req_abc Demo.world0)))
    !! idem_flag Demo.lib "abc" = Some "2026-11-03T12:00:00.250000+00:00" /\
  fst (Demo.run Demo.rejecting Demo.req_abc
         (world (snd (Demo.run Demo.rejecting Demo.req_abc Demo.world0)))) =
    Ok (duplicate_response "abc").
Proof. repeat split; vm_compute; reflexivity. Qed.



(** A target with a NUL: the push goes through, then the audit write
    raises [ValueError]. *)
Lemma nul_target_raises_value_error :
  fst (Demo.run Demo.live Demo.req_nul Demo.world_nul) = Raise ValueError /\
  ext (world (snd (Demo.run Demo.live Demo.req_nul Demo.world_nul))) = 1%nat /\
  audit_writes (trace (snd (Demo.run Demo.live Demo.req_nul Demo.world_nul))) = [].
Proof. repeat split; vm_compute; reflexivity. Qed.


(** Two requests for one target within one second of a clock that moves
    forward: they get the same [audit_id], and the entry of the second
    replaces the entry of the first. *)
Lemma same_second_same_audit_id :
  dt_lt Demo.noon Demo.noon_later = true /\
  Demo.answer (Demo.run Demo.live Demo.req_first Demo.world0) =
    response "20261103T120000Z-RU_001-a87" Demo.hold_decision
      Demo.payload_hold (PDict Demo.sent_fields) /\
  Demo.answer (Demo.run Demo.live Demo.req_second Demo.world_later) =
    response "20261103T120000Z-RU_001-a87" Demo.hold_decision
      Demo.payload_hold (PDict Demo.sent_fields) /\
  files Demo.world_later !! audit_file "20261103T120000Z-RU_001-a87" =
    Some (Demo.show (audit_entry Demo.req_first "20261103T120000Z-RU_001-a87"
                       "20261103T120000Z" Demo.hold_decision Demo.payload_hold
                       (PDict Demo.sent_fields))) /\
  files (world (snd (Demo.run Demo.live Demo.req_second Demo.world_later)))
    !! audit_file "20261103T120000Z-RU_001-a87" =
    Some (Demo.show (audit_entry Demo.req_second "20261103T120000Z-RU_001-a87"
                       "20261103T120000Z" Demo.hold_decision Demo.payload_hold
                       (PDict Demo.sent_fields))) /\
  files (world (snd (Demo.run Demo.live Demo.req_second Demo.world_later)))
    !! audit_file "20261103T120000Z-RU_001-a87" <>
  files Demo.world_later !! audit_file "20261103T120000Z-RU_001-a87" /\
  length (List.filter is_audit_path
            (map fst (map_to_list
               (files (world (snd (Demo.run Demo.live Demo.req_second
                                     Demo.world_later))))))) = 1%nat.
Proof.
  split; [vm_compute; reflexivity|].
  split; [vm_compute; reflexivity|].
  split; [vm_compute; reflexivity|].
  split; [vm_compute; reflexivity|].
  split; [vm_compute; reflexivity|].
  split; [|vm_compute; reflexivity].
  intros H. vm_compute in H. discriminate H.
Qed.

Lemma audit_entry_kept_across_seconds_or_targets_demo :
  audit_id_of (strftime_compact Demo.noon) "RU_001" <>
    audit_id_at Demo.req_second (init Demo.world_next) /\
  files (world (snd (audit_step Demo.lib Demo.req_second Demo.hold_decision
                       Demo.payload_hold (PDict Demo.sent_fields)
                       (init Demo.world_next))))
    !! audit_file (audit_id_of (strftime_compact Demo.noon) "RU_001") =
    Some (Demo.show (audit_entry Demo.req_first "20261103T120000Z-RU_001-a87"
                       "20261103T120000Z" Demo.hold_decision Demo.payload_hold
                       (PDict Demo.sent_fields))) /\
  files (world (snd (audit_step Demo.lib Demo.req_second Demo.hold_decision
                       Demo.payload_hold (PDict Demo.sent_fields)
                       (init Demo.world_next))))
    !! audit_file (audit_id_at Demo.req_second (init Demo.world_next)) =
    Some (audit_text Demo.lib Demo.req_second (init Demo.world_next)
            Demo.hold_decision Demo.payload_hold (PDict Demo.sent_fields)).
Proof.
  apply (audit_entry_kept_across_seconds_or_targets Demo.lib Demo.req_second
           Demo.hold_decision Demo.payload_hold (PDict Demo.sent_fields)
           (init Demo.world_next)
           (Demo.answer (audit_step Demo.lib Demo.req_second Demo.hold_decision
                           Demo.payload_hold (PDict Demo.sent_fields)
                           (init Demo.world_next)))
           (snd (audit_step Demo.lib Demo.req_second Demo.hold_decision
                   Demo.payload_hold (PDict Demo.sent_fields)
                   (init Demo.world_next)))
           Demo.noon "RU_001").
  - unfold dt_valid, Demo.noon. simpl. lia.
  - unfold dt_valid, Demo.world_next, Demo.noon_next. simpl. lia.
  - left. vm_compute. discriminate.
  - vm_compute. reflexivity.
  - vm_compute. reflexivity.
Defined.

Section Refinement.
Context {Ext : Type}.
Variable L : Library.
Variable P : Pipeline Ext.
Variable environ : gmap string string.

(** The handler of a request with a key is the check, the set and the
    rest, one after the other. *)
Lemma decision_as_guard_steps req k (s : St Ext) :
  key_given (idempotency_key req) = Some k ->
  decision L P environ req s =
    (let* pc := guard_step L k AtCheck in
     let* pc' := guard_step L k pc in
     after_guard L P environ req k pc') s.
Proof.
  intros Hk. unfold decision, idempotency_check. rewrite Hk.
  unfold after_guard, guard_outcome, guard_step, bind, mkdir_p, emit,
    path_exists, datetime_now, write_text, ret; simpl.
  destruct (stat_refused _ _); [reflexivity|].
  destruct (bool_decide _); simpl; [reflexivity|].
  destruct (faulty (world s) (idem_flag L k));
    [destruct (refusal (world s) (idem_flag L k))|]; reflexivity.
Qed.

End Refinement.

(** C5: the check and the set of step 0 are two calls with nothing
    holding the flag between them. Two requests with the key [abc] whose
    checks both run before either set both find no flag: both pass, both
    are answered as originals, [post_policy] is called twice and two
    audit entries are written. *)
Theorem concurrent_duplicates_both_dispatch :
  interleave Demo.lib "abc" "abc" [false; true; false; true]
    (AtCheck, AtCheck) (init Demo.world0) =
    (Ok (Passed, Passed),
     snd (interleave Demo.lib "abc" "abc" [false; true; false; true]
            (AtCheck, AtCheck) (init Demo.world0))) /\
  fst (Demo.race (init Demo.world0)) =
    Ok (response "20261103T120000Z-RU_001-a87" Demo.hold_decision
          Demo.payload_hold (PDict Demo.sent_fields),
        response "20261103T120000Z-RU_001-a87" Demo.hold_decision
          Demo.payload_hold (PDict Demo.sent_fields)) /\
  pushes (trace (snd (Demo.race (init Demo.world0)))) = [PostPolicy; PostPolicy] /\
  ext (world (snd (Demo.race (init Demo.world0)))) = 2%nat /\
  length (audit_writes (trace (snd (Demo.race (init Demo.world0))))) = 2%nat.
Proof. repeat split; vm_compute; reflexivity. Qed.

Lemma minutes_never_read_demo :
  decision Demo.lib Demo.live ∅ Demo.req_abc (init Demo.world0) =
  decision Demo.lib Demo.live ∅ (with_minutes 5 Demo.req_abc) (init Demo.world0).
Proof.
  apply (minutes_never_read Demo.lib Demo.live ∅ Demo.req_abc
           (with_minutes 5 Demo.req_abc) (init Demo.world0)).
  unfold same_but_minutes. simpl. repeat split; reflexivity.
Defined.

(** * Further properties of the endpoints *)

(** ** Invariants of the world *)

Section Preserves.
Context {Ext : Type}.
Implicit Types s : St Ext.

Lemma preserves_ret {A} I (a : A) : preserves I (@ret Ext A a).
Proof. intros s H. exact H. Qed.

Lemma preserves_raise {A} I e : preserves I (@raise Ext A e).
Proof. intros s H. exact H. Qed.

Lemma preserves_bind {A B} I (m : M Ext A) (k : A -> M Ext B) :
  preserves I m -> (forall a, preserves I (k a)) -> preserves I (bind m k).
Proof.
  intros Hm Hk s H. unfold bind. specialize (Hm s H).
  destruct (m s) as [[a|e] s1]; simpl in *; [apply Hk; exact Hm | exact Hm].
Qed.

Lemma preserves_mkdir I p : preserves I (@mkdir_p Ext p).
Proof. intros s H. exact H. Qed.

Lemma preserves_exists I p : preserves I (@path_exists Ext p).
Proof.
  intros s H. unfold path_exists.
  destruct (stat_refused (world s) p); exact H.
Qed.

Lemma preserves_now I : preserves I (@datetime_now Ext).
Proof. intros s H. exact H. Qed.

Lemma preserves_py_get I v k : preserves I (@py_get Ext v k).
Proof. destruct v; intros st H; exact H. Qed.

Lemma preserves_read I p : preserves I (@read_text Ext p).
Proof.
  intros s H. unfold read_text.
  destruct (faulty (world s) p); [exact H|].
  destruct (files (world s) !! p); exact H.
Qed.

Lemma preserves_call {A} (I : World Ext -> Prop) c
    (f : World Ext -> Result A * World Ext) :
  (forall w, I w -> I (snd (f w))) -> preserves I (call c f).
Proof.
  intros Hf s H. unfold call. specialize (Hf (world s) H).
  destruct (f (world s)) as [r w']. exact Hf.
Qed.

(** A file that is there stays there under the handler's own writes. *)
Lemma preserves_write q p text :
  preserves (fun w => is_Some (files w !! q)) (@write_text Ext p text).
Proof.
  intros s H. unfold write_text.
  destruct (faulty (world s) p).
  - destruct (refusal (world s) p); try exact H. simpl.
    destruct (String.eqb_spec p q) as [->|Hne].
    + rewrite lookup_insert_eq. eauto.
    + rewrite lookup_insert_ne by exact Hne. exact H.
  - simpl. destruct (String.eqb_spec p q) as [->|Hne].
    + rewrite lookup_insert_eq. eauto.
    + rewrite lookup_insert_ne by exact Hne. exact H.
Qed.

Lemma preserves_append q p text :
  preserves (fun w => is_Some (files w !! q)) (@append_text Ext p text).
Proof.
  intros s H. unfold append_text.
  destruct (faulty (world s) p); [exact H|]. simpl.
  destruct (String.eqb_spec p q) as [->|Hne].
  - rewrite lookup_insert_eq. eauto.
  - rewrite lookup_insert_ne by exact Hne. exact H.
Qed.

End Preserves.

Section Once.
Context {Ext : Type}.
Variable L : Library.
Variable P : Pipeline Ext.
Variable environ : gmap string string.
Implicit Types s : St Ext.
Implicit Types w : World Ext.

Lemma pipeline_keeps_file req q :
  keeps_path P q ->
  preserves (fun w => is_Some (files w !! q)) (pipeline L P environ req).
Proof.
  intros (Hf & He & Hp & Hd & Hb & Hs).
  unfold pipeline, compute_steps, forecast_step, decision_step, policy_step,
    push_step, audit_step.
  repeat (first
    [ apply preserves_bind; [|intros ?]
    | apply preserves_call; intros ? ?; auto
    | apply preserves_read
    | apply preserves_write
    | apply preserves_append
    | apply preserves_mkdir
    | apply preserves_now
    | apply preserves_py_get
    | apply preserves_ret
    | apply preserves_raise
    | match goal with
      | |- preserves _ (match ?x with _ => _ end) => destruct x
      | |- preserves _ (if ?x then _ else _) => destruct x
      end ]).
Qed.

(** Step 0 of a request whose key is marked. *)
Lemma idempotency_check_seen req k s :
  key_given (idempotency_key req) = Some k ->
  is_Some (files (world s) !! idem_flag L k) ->
  idempotency_check L req s =
    (Ok (Some (duplicate_response k)),
     {| world := world s;
        trace := (trace s ++ [EvMkdir idem_dir]) ++ [EvExists (idem_flag L k)] |}).
Proof.
  intros Hk Hflag. unfold idempotency_check. rewrite Hk.
  unfold bind, mkdir_p, emit, path_exists; simpl.
  rewrite (stat_refused_present _ _ Hflag).
  rewrite bool_decide_eq_true_2 by exact Hflag. reflexivity.
Qed.

(** After step 0 of a request with a key, the flag of the key is there
    unless its write was refused. *)
Lemma idempotency_check_marks req k s :
  key_given (idempotency_key req) = Some k ->
  faulty (world s) (idem_flag L k) = false ->
  is_Some (files (world (snd (idempotency_check L req s))) !! idem_flag L k).
Proof.
  intros Hk Hf. unfold idempotency_check. rewrite Hk.
  unfold bind, mkdir_p, emit, path_exists, datetime_now, write_text; simpl.
  rewrite (stat_refused_clean _ _ Hf).
  destruct (bool_decide (is_Some (files (world s) !! idem_flag L k))) eqn:E; simpl.
  - apply bool_decide_eq_true_1 in E. exact E.
  - rewrite Hf. simpl. rewrite lookup_insert_eq. eauto.
Qed.

(** A key runs at most once: after any request with the key [k], however
    it ended, a later request with the same key is answered with the
    duplicate object and calls no module and writes nothing, as long as
    the modules leave the flag file alone. *)
Theorem key_runs_at_most_once req1 req2 k w w2 :
  key_given (idempotency_key req1) = Some k ->
  key_given (idempotency_key req2) = Some k ->
  faulty w (idem_flag L k) = false ->
  keeps_path P (idem_flag L k) ->
  files w2 = files (world (snd (decision L P environ req1 (init w)))) ->
  fst (decision L P environ req2 (init w2)) = Ok (duplicate_response k) /\
  world (snd (decision L P environ req2 (init w2))) = w2 /\
  calls (trace (snd (decision L P environ req2 (init w2)))) = [] /\
  writes (trace (snd (decision L P environ req2 (init w2)))) = [].
Proof.
  intros Hk1 Hk2 Hf Hkeep Hfiles.
  assert (is_Some (files w2 !! idem_flag L k)) as Hflag.
  { rewrite Hfiles. unfold decision, bind.
    pose proof (idempotency_check_marks req1 k (init w) Hk1 Hf) as Hm.
    destruct (idempotency_check L req1 (init w)) as [[[r|]|e] s0]; simpl in *;
      try exact Hm.
    apply (pipeline_keeps_file req1 _ Hkeep s0 Hm). }
  unfold decision.
  rewrite (bind_ok _ _ _ _ _ (idempotency_check_seen req2 k (init w2) Hk2 Hflag)).
  simpl. auto.
Qed.

End Once.

Section FailFast.
Context {Ext : Type}.
Variable L : Library.
Variable P : Pipeline Ext.
Variable environ : gmap string string.
Implicit Types s : St Ext.
Implicit Types w : World Ext.

Lemma compute_steps_keeps_file req q :
  keeps_path P q ->
  preserves (fun w => is_Some (files w !! q)) (compute_steps L P environ req).
Proof.
  intros (Hf & He & Hp & Hd & Hb & Hs).
  unfold compute_steps, forecast_step, decision_step, policy_step.
  repeat (first
    [ apply preserves_bind; [|intros ?]
    | apply preserves_call; intros ? ?; auto
    | apply preserves_read
    | apply preserves_ret
    | apply preserves_raise
    | match goal with
      | |- preserves _ (match ?x with _ => _ end) => destruct x
      end ]).
Qed.

(** C4, as the code has it: when one of steps 1 to 3 raises (the
    decision module or the policy builder rejecting its input among
    them), the handler raises the same error, [post_policy] is not
    called, and no audit entry, log line or payload file is written; the
    one thing written is the flag of the idempotency key, which step 0
    had created before. As long as the modules leave the flag file in
    place it is still there after the failure, and the retry with the
    same key is answered as a duplicate. *)
Theorem failed_computation_effects req w s0 e s1 :
  idempotency_check L req (init w) = (Ok None, s0) ->
  compute_steps L P environ req s0 = (Raise e, s1) ->
  decision L P environ req (init w) = (Raise e, s1) /\
  ~ In PostPolicy (calls (trace s1)) /\
  writes (trace s1) = guard_writes L req /\
  audit_writes (trace s1) = [] /\
  log_appends (trace s1) = [] /\
  (forall k, key_given (idempotency_key req) = Some k ->
     files (world s0) !! idem_flag L k = Some (isoformat (now w)) /\
     (keeps_path P (idem_flag L k) ->
        is_Some (files (world s1) !! idem_flag L k) /\
        forall req2 w2,
          key_given (idempotency_key req2) = Some k ->
          files w2 = files (world s1) ->
          fst (decision L P environ req2 (init w2)) =
            Ok (duplicate_response k))).
Proof.
  intros H0 H1.
  destruct (idempotency_check_pass L _ _ _ H0) as (W0 & C0 & F0).
  destruct (compute_steps_quiet L P environ _ _ _ _ H1) as (W1 & C1).
  simpl in W0, C0, F0.
  split.
  { unfold decision. rewrite (bind_ok _ _ _ _ _ H0).
    unfold pipeline. apply bind_raise. exact H1. }
  split; [apply C1; rewrite C0; simpl; tauto|].
  split; [congruence|].
  unfold audit_writes, log_appends. rewrite W1, W0.
  destruct (filter_audit_flag L req) as [-> ->].
  split; [reflexivity|]. split; [reflexivity|].
  intros k Hk. split; [apply F0; exact Hk|].
  intros Hkeep.
  assert (is_Some (files (world s1) !! idem_flag L k)) as Hflag.
  { pose proof (compute_steps_keeps_file req _ Hkeep s0) as Hpres.
    rewrite H1 in Hpres. apply Hpres. rewrite (F0 k Hk). eauto. }
  split; [exact Hflag|].
  intros req2 w2 Hk2 Hfiles. unfold decision.
  rewrite (bind_ok _ _ _ _ _
             (idempotency_check_seen L req2 k (init w2) Hk2
                ltac:(simpl; rewrite Hfiles; exact Hflag))).
  reflexivity.
Qed.

End FailFast.

Lemma failed_computation_effects_demo :
  decision Demo.lib Demo.rejecting ∅ Demo.req_abc (init Demo.world0) =
    (Raise (Raised "InvalidForecast"),
     Demo.after_compute Demo.rejecting Demo.req_abc Demo.world0) /\
  ~ In PostPolicy
      (calls (trace (Demo.after_compute Demo.rejecting Demo.req_abc Demo.world0))) /\
  writes (trace (Demo.after_compute Demo.rejecting Demo.req_abc Demo.world0)) =
    guard_writes Demo.lib Demo.req_abc /\
  audit_writes (trace (Demo.after_compute Demo.rejecting Demo.req_abc Demo.world0)) = [] /\
  log_appends (trace (Demo.after_compute Demo.rejecting Demo.req_abc Demo.world0)) = [] /\
  files (world (Demo.after_check Demo.req_abc Demo.world0))
    !! idem_flag Demo.lib "abc" = Some (isoformat (now Demo.world0)) /\
  is_Some (files (world (Demo.after_compute Demo.rejecting Demo.req_abc
                           Demo.world0)) !! idem_flag Demo.lib "abc") /\
  forall req2 w2,
    key_given (idempotency_key req2) = Some "abc" ->
    files w2 =
      files (world (Demo.after_compute Demo.rejecting Demo.req_abc Demo.world0)) ->
    fst (decision Demo.lib Demo.rejecting ∅ req2 (init w2)) =
      Ok (duplicate_response "abc").
Proof.
  destruct (failed_computation_effects Demo.lib Demo.rejecting ∅ Demo.req_abc
              Demo.world0 (Demo.after_check Demo.req_abc Demo.world0)
              (Raised "InvalidForecast")
              (Demo.after_compute Demo.rejecting Demo.req_abc Demo.world0)
              eq_refl eq_refl)
    as (Hrun & Hpush & Hw & Ha & Hl & Hkey).
  destruct (Hkey "abc" eq_refl) as (Hflag & Hstays).
  assert (keeps_path Demo.rejecting (idem_flag Demo.lib "abc")) as Hkeep.
  { unfold keeps_path. simpl. repeat split; intros; assumption. }
  destruct (Hstays Hkeep) as (Hthere & Hretry).
  repeat split; assumption.
Defined.

(** ** The order of the module calls *)

Section CallOrder.
Context {Ext : Type}.
Implicit Types s : St Ext.

Lemma calls_within_quiet {A} (m : M Ext A) :
  (forall s, calls (trace (snd (m s))) = calls (trace s)) ->
  calls_within [] m.
Proof.
  intros H s. exists []. rewrite app_nil_r. split; [apply H|].
  split; [reflexivity | auto].
Qed.

Lemma calls_within_ret {A} (a : A) : calls_within [] (@ret Ext A a).
Proof. apply calls_within_quiet. reflexivity. Qed.

Lemma calls_within_raise {A} e : calls_within [] (@raise Ext A e).
Proof. apply calls_within_quiet. reflexivity. Qed.

Lemma calls_within_emits {A} (m : M Ext A) :
  emits (fun ev => calls [ev] = []) m -> calls_within [] m.
Proof.
  intros H. apply calls_within_quiet. intros s.
  destruct (H s) as (evs & E & F). rewrite E, calls_app.
  assert (calls evs = []) as ->; [|apply app_nil_r].
  clear E. induction F as [|ev evs G _ IH]; [reflexivity|].
  change (ev :: evs) with ([ev] ++ evs). rewrite calls_app, G, IH. reflexivity.
Qed.

Lemma calls_within_call {A} c (f : World Ext -> Result A * World Ext) :
  calls_within [c] (call c f).
Proof.
  intros s. exists [c]. unfold call.
  destruct (f (world s)) as [r w']. simpl. rewrite calls_app.
  split; [reflexivity|]. split; [reflexivity | auto].
Qed.

Lemma calls_within_bind {A B} c1 c2 (m : M Ext A) (k : A -> M Ext B) :
  calls_within c1 m -> (forall a, calls_within c2 (k a)) ->
  calls_within (c1 ++ c2) (bind m k).
Proof.
  intros Hm Hk s. unfold bind.
  destruct (Hm s) as (d1 & E1 & P1 & F1).
  destruct (m s) as [[a|e] s1]; simpl in *.
  - destruct (Hk a s1) as (d2 & E2 & P2 & F2).
    rewrite (F1 a eq_refl) in E1.
    exists (c1 ++ d2). rewrite E2, E1, app_assoc.
    split; [reflexivity|]. split.
    + apply prefix_app. exact P2.
    + intros b Hb. rewrite (F2 b Hb). reflexivity.
  - exists d1. split; [exact E1|]. split.
    + apply prefix_app_r. exact P1.
    + discriminate.
Qed.

Lemma calls_within_bind_nil {A B} (m : M Ext A) (k : A -> M Ext B) :
  calls_within [] m -> (forall a, calls_within [] (k a)) ->
  calls_within [] (bind m k).
Proof. intros Hm Hk. exact (calls_within_bind [] [] m k Hm Hk). Qed.

Lemma calls_within_write p text : calls_within [] (@write_text Ext p text).
Proof. apply calls_within_emits, emits_write. reflexivity. Qed.

Lemma calls_within_append p text : calls_within [] (@append_text Ext p text).
Proof. apply calls_within_emits, emits_append. reflexivity. Qed.

Lemma calls_within_read p : calls_within [] (@read_text Ext p).
Proof. apply calls_within_emits, emits_read. reflexivity. Qed.

Lemma calls_within_mkdir p : calls_within [] (@mkdir_p Ext p).
Proof. apply calls_within_emits, emits_mkdir. reflexivity. Qed.

Lemma calls_within_now : calls_within [] (@datetime_now Ext).
Proof. apply calls_within_emits, emits_now. reflexivity. Qed.

Lemma calls_within_exists p : calls_within [] (@path_exists Ext p).
Proof. apply calls_within_emits, emits_exists. reflexivity. Qed.

Lemma calls_within_py_get v k : calls_within [] (@py_get Ext v k).
Proof. apply calls_within_emits, emits_py_get. Qed.

Variable L : Library.
Variable P : Pipeline Ext.
Variable environ : gmap string string.

Lemma audit_step_calls req decision_dict payload push_res :
  calls_within [] (@audit_step Ext L req decision_dict payload push_res).
Proof.
  unfold audit_step. cbv zeta.
  repeat (first
    [ apply calls_within_ret
    | apply calls_within_bind_nil; [|intros ?]
    | apply calls_within_now
    | apply calls_within_mkdir
    | apply calls_within_write
    | apply calls_within_append
    | apply calls_within_py_get ]).
Qed.

Lemma compute_steps_calls req :
  calls_within [FetchPm; RunEtl; PredictNextWindow; Decide; BuildPolicy]
    (compute_steps L P environ req).
Proof.
  unfold compute_steps.
  apply (calls_within_bind [FetchPm; RunEtl; PredictNextWindow]
           [Decide; BuildPolicy]).
  { unfold forecast_step.
    apply (calls_within_bind [FetchPm] [RunEtl; PredictNextWindow]);
      [apply calls_within_call | intros raw].
    apply (calls_within_bind [RunEtl] [PredictNextWindow]);
      [apply calls_within_call | intros feat].
    apply calls_within_call. }
  intros fcst.
  apply (calls_within_bind [Decide] [BuildPolicy]).
  { unfold decision_step.
    apply (calls_within_bind [Decide] []); [apply calls_within_call | intros p].
    apply calls_within_bind_nil; [apply calls_within_read | intros text].
    destruct (json_loads L text);
      [apply calls_within_ret | apply calls_within_raise]. }
  intros dd.
  apply (calls_within_bind [BuildPolicy] []).
  { unfold policy_step. apply calls_within_call. }
  intros payload. apply calls_within_ret.
Qed.

Lemma push_step_calls req payload :
  calls_within (if dry_run req then [] else [PostPolicy])
    (push_step L P req payload).
Proof.
  unfold push_step. destruct (dry_run req).
  - apply calls_within_bind_nil; [apply calls_within_mkdir | intros _].
    apply calls_within_bind_nil; [apply calls_within_write | intros _].
    apply calls_within_ret.
  - apply calls_within_call.
Qed.

Lemma pipeline_calls req :
  calls_within (full_calls req) (pipeline L P environ req).
Proof.
  unfold pipeline, full_calls.
  apply calls_within_bind; [apply compute_steps_calls | intros [dd payload]].
  rewrite <- (app_nil_r (if dry_run req then [] else [PostPolicy])).
  apply calls_within_bind; [apply push_step_calls | intros pr].
  apply audit_step_calls.
Qed.

Lemma idempotency_check_calls req :
  calls_within [] (@idempotency_check Ext L req).
Proof.
  unfold idempotency_check.
  destruct (key_given (idempotency_key req)); [|apply calls_within_ret].
  apply calls_within_bind_nil; [apply calls_within_mkdir | intros _].
  apply calls_within_bind_nil; [apply calls_within_exists | intros [|]].
  - apply calls_within_ret.
  - apply calls_within_bind_nil; [apply calls_within_now | intros t].
    apply calls_within_bind_nil; [apply calls_within_write | intros _].
    apply calls_within_ret.
Qed.

(** The modules are called in pipeline order, each at most once, and
    none after one of them raised: the calls of a request, however it
    ends, are a prefix of fetch, ETL, inference, decision, policy and (no
    dry run) push; an answered request that is no duplicate made all of
    them. *)
Theorem modules_called_in_order req (w : World Ext) :
  calls (trace (snd (decision L P environ req (init w))))
    `prefix_of` full_calls req /\
  (forall r, fst (decision L P environ req (init w)) = Ok r ->
     (forall k, r <> duplicate_response k) ->
     calls (trace (snd (decision L P environ req (init w)))) = full_calls req).
Proof.
  unfold decision, bind.
  destruct (idempotency_check_calls req (init w)) as (d0 & E0 & P0 & _).
  apply prefix_nil_inv in P0. subst d0. simpl in E0.
  pose proof (idempotency_check_early L req (init w)) as Hearly.
  destruct (idempotency_check L req (init w)) as [[[r0|]|e] s0]; simpl in *.
  - split; [rewrite E0; apply prefix_nil|].
    intros r Hr Hnd. injection Hr as <-.
    destruct (Hearly r0 s0 eq_refl) as [k ->]. destruct (Hnd k eq_refl).
  - destruct (pipeline_calls req s0) as (d & E & Pd & Fd).
    rewrite E0 in E. simpl in E. rewrite E.
    split; [exact Pd|]. intros r Hr _. apply (Fd r Hr).
  - split; [rewrite E0; apply prefix_nil | discriminate].
Qed.

End CallOrder.

(** ** What the decision endpoint writes, and what it does when step 5
    breaks off *)

Section Edges.
Context {Ext : Type}.
Variable L : Library.
Variable P : Pipeline Ext.
Variable environ : gmap string string.
Implicit Types s : St Ext.
Implicit Types w : World Ext.

Lemma own_event_paths req evs p :
  Forall (own_event L req) evs -> In p (writes evs) -> own_path L req p.
Proof.
  induction 1 as [|ev evs G _ IH]; [intros []|].
  destruct ev; simpl in *; auto; intros [<-|Hin]; auto.
Qed.

Lemma decision_emits_own req :
  emits (own_event L req) (decision L P environ req).
Proof.
  unfold decision.
  apply emits_bind.
  { unfold idempotency_check.
    destruct (key_given (idempotency_key req)) as [k|] eqn:Hk;
      [|apply emits_ret].
    apply emits_bind; [apply emits_mkdir; exact I | intros _].
    apply emits_bind; [apply emits_exists; exact I | intros [|]].
    - apply emits_ret.
    - apply emits_bind; [apply emits_now; exact I | intros t].
      apply emits_bind; [|intros _; apply emits_ret].
      apply emits_write. left. exists k. auto. }
  intros [r|]; [apply emits_ret|].
  unfold pipeline.
  apply emits_bind.
  { eapply emits_weaken; [|apply compute_steps_emits].
    intros [c| | | | | |]; simpl; auto; contradiction. }
  intros [dd payload].
  apply emits_bind.
  { unfold push_step. destruct (dry_run req).
    - apply emits_bind; [apply emits_mkdir; exact I | intros _].
      apply emits_bind; [|intros _; apply emits_ret].
      apply emits_write. right. left. reflexivity.
    - apply emits_call. exact I. }
  intros pr. unfold audit_step. cbv zeta.
  apply emits_bind; [apply emits_now; exact I | intros t].
  apply emits_bind; [apply emits_mkdir; exact I | intros _].
  apply emits_bind.
  { apply emits_write. right. right. right. exists t. reflexivity. }
  intros _.
  apply emits_bind; [apply emits_mkdir; exact I | intros _].
  repeat (apply emits_bind; [apply emits_py_get | intros ?]).
  apply emits_bind; [|intros _; apply emits_ret].
  apply emits_append. right. right. left. reflexivity.
Qed.

Lemma digit_not_slash n : Ascii.eqb (digit n) "/" = false.
Proof.
  apply Ascii.eqb_neq. unfold digit. intros H.
  apply (f_equal nat_of_ascii) in H.
  pose proof (Z.mod_pos_bound n 10 eq_refl) as B.
  rewrite nat_ascii_embedding in H by lia.
  assert (nat_of_ascii "/" = 47%nat) as E by reflexivity.
  rewrite E in H. lia.
Qed.

Lemma has_slash_app a b : has_slash (a +:+ b) = has_slash a || has_slash b.
Proof.
  induction a as [|c a IH]; [reflexivity|].
  change (has_slash (String c (a +:+ b)) =
          has_slash (String c a) || has_slash b).
  simpl. rewrite IH. apply orb_assoc.
Qed.

Lemma has_slash_strftime t : has_slash (strftime_compact t) = false.
Proof.
  unfold strftime_compact, pad4, pad2. simpl.
  rewrite !digit_not_slash. reflexivity.
Qed.

(** Whatever the request and however it ends, the handler itself writes
    to four paths only: the flag of the request's key, the payload file,
    the decision log and the audit file named after an instant and the
    request's target. When the target holds no [/], a write under
    [data/audit/] goes to a file directly in [data/audit]. *)
Theorem decision_writes_named_files req w p :
  In p (writes (trace (snd (decision L P environ req (init w))))) ->
  own_path L req p /\
  (has_slash (targetRU req) = false -> is_audit_path p = true ->
   directly_in audit_dir p).
Proof.
  intros Hin.
  assert (own_path L req p) as Hown.
  { destruct (decision_emits_own req (init w)) as (evs & E & F).
    rewrite E in Hin. simpl in Hin. eapply own_event_paths; eauto. }
  split; [exact Hown|]. intros Hns Haud.
  destruct Hown as [(k & _ & ->)|[->|[->|(t & ->)]]]; try discriminate Haud.
  exists (audit_id_of (strftime_compact t) (targetRU req) +:+ ".json").
  split; [reflexivity|].
  unfold audit_id_of. rewrite !has_slash_app, has_slash_strftime, Hns.
  reflexivity.
Qed.

(** When the decision read back or the push result is no dict (a
    [post_policy] that returns nothing, say), step 5 has already written
    the audit entry when building the log line raises [AttributeError]:
    the request fails with the entry on disk and no log line. *)
Theorem non_dict_result_audited_not_logged
    req w s0 decision_dict payload s1 push_res s2 :
  idempotency_check L req (init w) = (Ok None, s0) ->
  compute_steps L P environ req s0 = (Ok (decision_dict, payload), s1) ->
  push_step L P req payload s1 = (Ok push_res, s2) ->
  is_dict decision_dict && is_dict push_res = false ->
  faulty (world s2) (audit_file (audit_id_at req s2)) = false ->
  exists s3,
    decision L P environ req (init w) = (Raise AttributeError, s3) /\
    files (world s3) !! audit_file (audit_id_at req s2) =
      Some (audit_text L req s2 decision_dict payload push_res) /\
    files (world s3) !! log_file = files (world s2) !! log_file /\
    writes (trace s3) = writes (trace s2) ++ [audit_file (audit_id_at req s2)].
Proof.
  intros H0 H1 H2 Hnd Ha.
  assert (audit_step L req decision_dict payload push_res s2 =
            (Raise AttributeError,
             {| world := set_files
                           (<[audit_file (audit_id_at req s2) :=
                                audit_text L req s2 decision_dict payload push_res]>
                              (files (world s2))) (world s2);
                trace := trace s2 ++
                         [EvNow; EvMkdir audit_dir;
                          EvWrite (audit_file (audit_id_at req s2))
                            (audit_text L req s2 decision_dict payload push_res);
                          EvMkdir "logs"] |})) as H3.
  { unfold audit_step, bind, datetime_now, mkdir_p, emit, write_text; simpl.
    fold (audit_id_at req s2). rewrite Ha. simpl.
    unfold audit_text. rewrite <- !app_assoc. simpl.
    destruct decision_dict; try reflexivity.
    destruct push_res; try reflexivity. discriminate Hnd. }
  eexists. split.
  { unfold decision. rewrite (bind_ok _ _ _ _ _ H0).
    unfold pipeline. rewrite (bind_ok _ _ _ _ _ H1).
    rewrite (bind_ok _ _ _ _ _ H2). exact H3. }
  simpl. split; [apply lookup_insert_eq|].
  split; [apply lookup_insert_ne; discriminate|].
  rewrite writes_app. reflexivity.
Qed.


(** The handler catches nothing around step 4: when the push raises
    ([post_policy] raising, or the payload file of a dry run refused),
    the request fails with that error and leaves no audit entry and no
    log line. *)
Theorem push_exception_skips_audit req w s0 decision_dict payload s1 e s2 :
  idempotency_check L req (init w) = (Ok None, s0) ->
  compute_steps L P environ req s0 = (Ok (decision_dict, payload), s1) ->
  push_step L P req payload s1 = (Raise e, s2) ->
  decision L P environ req (init w) = (Raise e, s2) /\
  writes (trace s2) = guard_writes L req /\
  audit_writes (trace s2) = [] /\
  log_appends (trace s2) = [].
Proof.
  intros H0 H1 H2.
  destruct (idempotency_check_pass L _ _ _ H0) as (W0 & _ & _).
  destruct (compute_steps_quiet L P environ _ _ _ _ H1) as (W1 & _).
  simpl in W0.
  assert (writes (trace s2) = writes (trace s1)) as W2.
  { revert H2. unfold push_step. destruct (dry_run req).
    - unfold bind, mkdir_p, emit, write_text; simpl.
      destruct (faulty (world s1) payload_file); [|discriminate].
      destruct (refusal (world s1) payload_file);
        intros H; injection H as _ <-; simpl;
        rewrite writes_app; simpl; apply app_nil_r.
    - unfold call. destruct (post_policy P payload (world s1)) as [r w'].
      intros H. injection H as _ <-. simpl.
      rewrite writes_app. simpl. apply app_nil_r. }
  split.
  { unfold decision. rewrite (bind_ok _ _ _ _ _ H0).
    unfold pipeline. rewrite (bind_ok _ _ _ _ _ H1).
    apply bind_raise. exact H2. }
  split; [congruence|].
  unfold audit_writes, log_appends. rewrite W2, W1, W0.
  destruct (filter_audit_flag L req) as [-> ->]. auto.
Qed.

(** When the flag of a fresh key cannot be written, the request fails
    with the error of that write (or of the lookup) before any module is
    called and without a completed write. A write refused before the open
    leaves no flag; a write refused after the open leaves a flag behind,
    empty or cut short, and the key is spent: the retry with the same
    key is answered as a duplicate. *)
Theorem flag_write_failure_stops_request req w k :
  key_given (idempotency_key req) = Some k ->
  files w !! idem_flag L k = None ->
  faulty w (idem_flag L k) = true ->
  exists s',
    decision L P environ req (init w) =
      (Raise (refused_error w (idem_flag L k)), s') /\
    world s' = refused_world w (idem_flag L k) /\
    calls (trace s') = [] /\ writes (trace s') = [] /\
    (forall kept, refusal w (idem_flag L k) = RefusedAfterOpen kept ->
       files (world s') !! idem_flag L k = Some kept /\
       forall req2 w2,
         key_given (idempotency_key req2) = Some k ->
         files w2 = files (world s') ->
         fst (decision L P environ req2 (init w2)) =
           Ok (duplicate_response k)) /\
    ((forall kept, refusal w (idem_flag L k) <> RefusedAfterOpen kept) ->
       files (world s') !! idem_flag L k = None).
Proof.
  intros Hk Hnone Hf.
  assert (exists s',
            decision L P environ req (init w) =
              (Raise (refused_error w (idem_flag L k)), s') /\
            world s' = refused_world w (idem_flag L k) /\
            calls (trace s') = [] /\ writes (trace s') = [])
    as (s' & Hrun & Hworld & Hcalls & Hwrites).
  { unfold decision, idempotency_check. rewrite Hk.
    unfold bind, mkdir_p, emit, path_exists, datetime_now, init; simpl.
    destruct (stat_refused w (idem_flag L k)) eqn:S.
    - assert (refusal w (idem_flag L k) = Unsearchable) as R.
      { unfold stat_refused in S. rewrite Hnone, Hf in S. simpl in S.
        destruct (refusal w (idem_flag L k)); try discriminate S. reflexivity. }
      unfold refused_error, refused_world. rewrite R.
      eexists. split; [reflexivity|]. simpl. auto.
    - rewrite bool_decide_eq_false_2
        by (rewrite Hnone; intros [? ?]; discriminate).
      simpl. unfold write_text, refused_error, refused_world. simpl.
      rewrite Hf.
      destruct (refusal w (idem_flag L k));
        (eexists; split; [reflexivity|]; simpl; auto). }
  exists s'. split; [exact Hrun|]. split; [exact Hworld|].
  split; [exact Hcalls|]. split; [exact Hwrites|]. split.
  - intros kept R.
    assert (files (world s') !! idem_flag L k = Some kept) as Hflag.
    { rewrite Hworld. unfold refused_world. rewrite R. simpl.
      apply lookup_insert_eq. }
    split; [exact Hflag|]. intros req2 w2 Hk2 Hfiles.
    unfold decision.
    rewrite (bind_ok _ _ _ _ _
               (idempotency_check_seen L req2 k (init w2) Hk2
                  ltac:(simpl; rewrite Hfiles, Hflag; eauto))).
    reflexivity.
  - intros R. rewrite Hworld. unfold refused_world.
    destruct (refusal w (idem_flag L k)) as [|kept| |]; try exact Hnone.
    destruct (R kept eq_refl).
Qed.

End Edges.

(** ** White space *)

Lemma lstrip_all_space s : all_space s = true -> lstrip s = "".
Proof.
  induction s as [|c s IH]; simpl; [reflexivity|].
  destruct (is_space c); simpl; [exact IH | discriminate].
Qed.

Lemma lstrip_head s :
  all_space s = false ->
  exists c r, lstrip s = String c r /\ is_space c = false.
Proof.
  induction s as [|c s IH]; simpl; [discriminate|].
  destruct (is_space c) eqn:E; simpl; [exact IH | eauto].
Qed.

Lemma rstrip_head c r : is_space c = false -> rstrip (String c r) <> "".
Proof.
  intros E. simpl. destruct (rstrip r); [rewrite E|]; discriminate.
Qed.

Lemma strip_empty s : strip s = "" <-> all_space s = true.
Proof.
  unfold strip. split.
  - intros H. destruct (all_space s) eqn:E; [reflexivity|].
    destruct (lstrip_head s E) as (c & r & Hl & Hc).
    rewrite Hl in H. destruct (rstrip_head c r Hc H).
  - intros H. rewrite (lstrip_all_space s H). reflexivity.
Qed.

Lemma truthy_str s : truthy (PStr s) = true <-> s <> "".
Proof.
  simpl. destruct (String.eqb_spec s ""); simpl; split; congruence.
Qed.

Section Reports.
Context {Ext : Type}.
Variable P : Pipeline Ext.
Variable environ : gmap string string.
Variable Pd : Pandas.
Implicit Types s : St Ext.
Implicit Types env : gmap string string.

Lemma env_set_true env name :
  env_set env name = true <->
  exists v, env !! name = Some v /\ all_space v = false.
Proof.
  unfold env_set. rewrite truthy_str. split.
  - intros H. destruct (env !! name) as [v|] eqn:E; simpl in H.
    + exists v. split; [reflexivity|].
      destruct (all_space v) eqn:A; [|reflexivity].
      destruct H. apply strip_empty. exact A.
    + destruct H. reflexivity.
  - intros (v & -> & A). simpl. intros H. apply strip_empty in H. congruence.
Qed.

(** [/healthz] touches nothing: whatever its outcome the world is as
    before, no module is called and nothing is written. When the two
    lookups go through it answers with [status: ok] and with whether the
    model and meta files are there; when the lookup of one of the two
    paths is refused (a name too long, a directory that may not be
    searched) it raises the [OSError] of that path. *)
Theorem healthz_reports_without_effects env s :
  world (snd (healthz environ env s)) = world s /\
  calls (trace (snd (healthz environ env s))) = calls (trace s) /\
  writes (trace (snd (healthz environ env s))) = writes (trace s) /\
  (stat_refused (world s) (MODEL_PATH environ) = false ->
   stat_refused (world s) (META_PATH environ) = false ->
   exists fields,
     healthz environ env s =
       (Ok (PDict fields),
        {| world := world s;
           trace := (trace s ++ [EvExists (MODEL_PATH environ)]) ++
                    [EvExists (META_PATH environ)] |}) /\
     dict_lookup "status" fields = Some (PStr "ok") /\
     dict_lookup "model_exists" fields =
       Some (PBool (bool_decide
                      (is_Some (files (world s) !! MODEL_PATH environ)))) /\
     dict_lookup "meta_exists" fields =
       Some (PBool (bool_decide
                      (is_Some (files (world s) !! META_PATH environ))))) /\
  (stat_refused (world s) (MODEL_PATH environ) = true ->
   fst (healthz environ env s) = Raise (OSError (MODEL_PATH environ))) /\
  (stat_refused (world s) (MODEL_PATH environ) = false ->
   stat_refused (world s) (META_PATH environ) = true ->
   fst (healthz environ env s) = Raise (OSError (META_PATH environ))).
Proof.
  unfold healthz, bind, path_exists, ret. simpl.
  destruct (stat_refused (world s) (MODEL_PATH environ)); simpl.
  - repeat split; try discriminate.
  - destruct (stat_refused (world s) (META_PATH environ)); simpl.
    + rewrite calls_app, writes_app. simpl. rewrite !app_nil_r.
      repeat split; discriminate.
    + rewrite !calls_app, !writes_app. simpl. rewrite !app_nil_r.
      split; [reflexivity|]. split; [reflexivity|]. split; [reflexivity|].
      split; [|split; discriminate].
      intros _ _. eexists. split; [reflexivity|]. simpl. auto.
Qed.

(** When [/healthz] answers, it reports an environment variable as set
    exactly when the variable holds a character that is no white space
    (characters being code points below 256). *)
Theorem healthz_env_flags env s fields s' :
  healthz environ env s = (Ok (PDict fields), s') ->
  (dict_lookup "pm_api_mode" fields = Some (PBool true) <->
     exists v, env !! "PM_API_URL" = Some v /\ all_space v = false) /\
  (dict_lookup "a1_url_set" fields = Some (PBool true) <->
     exists v, env !! "A1_URL" = Some v /\ all_space v = false).
Proof.
  unfold healthz, bind, path_exists, ret.
  destruct (stat_refused (world s) (MODEL_PATH environ)); [discriminate|].
  simpl.
  destruct (stat_refused (world s) (META_PATH environ)); [discriminate|].
  intros H. injection H as <- _. simpl. split.
  - rewrite <- env_set_true. split; [congruence | intros ->; reflexivity].
  - rewrite <- env_set_true. split; [congruence | intros ->; reflexivity].
Qed.


(** [/forecast] never reads [req.minutes], and without a [PM_API_URL]
    (unset or empty) it reads nothing of the request: requests with the
    same window, or any two requests when the variable is not given,
    have the same outcome, final world and trace. *)
Theorem forecast_ignores_minutes_and_unset_window env req1 req2 s :
  (env !! "PM_API_URL" = None \/ env !! "PM_API_URL" = Some "") \/
  (ForecastReq.start req1 = ForecastReq.start req2 /\
   ForecastReq.end_ req1 = ForecastReq.end_ req2) ->
  forecast P environ Pd env req1 s = forecast P environ Pd env req2 s.
Proof.
  intros [[H|H]|[Hs He]]; unfold forecast, pm_api_url_given.
  - rewrite H. reflexivity.
  - rewrite H. reflexivity.
  - rewrite Hs, He. reflexivity.
Qed.

Lemma calls_within_lift {A} (r : Result A) : calls_within [] (@lift Ext A r).
Proof. destruct r; [apply calls_within_ret | apply calls_within_raise]. Qed.

Lemma emits_lift {A} good (r : Result A) : emits good (@lift Ext A r).
Proof. destruct r; [apply emits_ret | apply emits_raise]. Qed.

Lemma reads_only_writes evs : Forall reads_only evs -> writes evs = [].
Proof.
  induction 1 as [|ev evs G _ IH]; [reflexivity|].
  destruct ev; simpl in *; try contradiction; exact IH.
Qed.

Lemma forecast_calls env req :
  calls_within [FetchPm; RunEtl; PredictNextWindow]
    (forecast P environ Pd env req).
Proof.
  unfold forecast.
  apply (calls_within_bind [FetchPm] [RunEtl; PredictNextWindow]).
  { destruct (pm_api_url_given env); apply calls_within_call. }
  intros raw.
  apply (calls_within_bind [RunEtl] [PredictNextWindow]);
    [apply calls_within_call | intros feat].
  apply (calls_within_bind [PredictNextWindow] []);
    [apply calls_within_call | intros fcst].
  apply calls_within_bind_nil; [apply calls_within_read | intros text].
  repeat (apply calls_within_bind_nil; [apply calls_within_lift | intros ?]).
  apply calls_within_ret.
Qed.

Lemma forecast_emits env req :
  emits reads_only (forecast P environ Pd env req).
Proof.
  unfold forecast.
  apply emits_bind.
  { destruct (pm_api_url_given env); apply emits_call; exact I. }
  intros raw.
  apply emits_bind; [apply emits_call; exact I | intros feat].
  apply emits_bind; [apply emits_call; exact I | intros fcst].
  apply emits_bind; [apply emits_read; exact I | intros text].
  repeat (apply emits_bind; [apply emits_lift | intros ?]).
  apply emits_ret.
Qed.

(** [/forecast] writes nothing itself and calls only the fetch, the ETL
    and the inference, in this order and none after one raised: never the
    decision, the policy builder or the push. When it answers it made the
    three calls, and the [forecast_path] of the answer is the file it
    read. *)
Theorem forecast_reads_only_its_pipeline env req (w : World Ext) :
  writes (trace (snd (forecast P environ Pd env req (init w)))) = [] /\
  calls (trace (snd (forecast P environ Pd env req (init w))))
    `prefix_of` [FetchPm; RunEtl; PredictNextWindow] /\
  (forall r, fst (forecast P environ Pd env req (init w)) = Ok r ->
     calls (trace (snd (forecast P environ Pd env req (init w)))) =
       [FetchPm; RunEtl; PredictNextWindow] /\
     exists path fields,
       r = PDict fields /\
       dict_lookup "forecast_path" fields = Some (PStr path) /\
       In (EvRead path) (trace (snd (forecast P environ Pd env req (init w))))).
Proof.
  split.
  { destruct (forecast_emits env req (init w)) as (evs & E & F).
    rewrite E. simpl. apply reads_only_writes. exact F. }
  destruct (forecast_calls env req (init w)) as (d & E & Pre & Full).
  simpl in E. split; [rewrite E; exact Pre|].
  intros r Hr. split; [rewrite E; apply (Full r Hr)|].
  destruct (forecast P environ Pd env req (init w)) as [r' s'] eqn:Hrun.
  simpl in Hr. subst r'. simpl. unfold forecast in Hrun.
  apply bind_ok_inv in Hrun. destruct Hrun as (raw & s1 & _ & Hrun).
  apply bind_ok_inv in Hrun. destruct Hrun as (feat & s2 & _ & Hrun).
  apply bind_ok_inv in Hrun. destruct Hrun as (fcst & s3 & _ & Hrun).
  apply bind_ok_inv in Hrun. destruct Hrun as (text & s4 & Hread & Hrun).
  assert (In (EvRead fcst) (trace s4)) as Hin.
  { revert Hread. unfold read_text.
    destruct (faulty (world s3) fcst); [discriminate|].
    destruct (files (world s3) !! fcst); [|discriminate].
    intros H. injection H as _ <-. simpl. apply in_or_app. right. left.
    reflexivity. }
  assert (forall A (x : Result A) a sa sb,
            @lift Ext A x sa = (Ok a, sb) -> sb = sa) as Hlift.
  { intros A [a'|e'] a sa sb; simpl; unfold ret, raise; intros H;
      [injection H as _ <-; reflexivity | discriminate]. }
  apply bind_ok_inv in Hrun. destruct Hrun as (fc & s5 & H5 & Hrun).
  apply Hlift in H5. subst s5.
  apply bind_ok_inv in Hrun. destruct Hrun as (ts & s6 & H6 & Hrun).
  apply Hlift in H6. subst s6.
  apply bind_ok_inv in Hrun. destruct Hrun as (p10 & s7 & H7 & Hrun).
  apply Hlift in H7. subst s7.
  apply bind_ok_inv in Hrun. destruct Hrun as (p50 & s8 & H8 & Hrun).
  apply Hlift in H8. subst s8.
  apply bind_ok_inv in Hrun. destruct Hrun as (p90 & s9 & H9 & Hrun).
  apply Hlift in H9. subst s9.
  injection Hrun as <- <-.
  eexists fcst, _. split; [reflexivity|]. split; [reflexivity | exact Hin].
Qed.

End Reports.

(** ** The further properties on the running instances *)

Lemma key_runs_at_most_once_demo :
  fst (decision Demo.lib Demo.rejecting ∅ Demo.req_abc
         (init (set_now Demo.noon_next
                  (world (snd (Demo.run Demo.rejecting Demo.req_abc Demo.world0)))))) =
    Ok (duplicate_response "abc") /\
  world (snd (decision Demo.lib Demo.rejecting ∅ Demo.req_abc
                (init (set_now Demo.noon_next
                         (world (snd (Demo.run Demo.rejecting Demo.req_abc
                                        Demo.world0))))))) =
    set_now Demo.noon_next
      (world (snd (Demo.run Demo.rejecting Demo.req_abc Demo.world0))) /\
  calls (trace (snd (decision Demo.lib Demo.rejecting ∅ Demo.req_abc
                       (init (set_now Demo.noon_next
                                (world (snd (Demo.run Demo.rejecting Demo.req_abc
                                               Demo.world0)))))))) = [] /\
  writes (trace (snd (decision Demo.lib Demo.rejecting ∅ Demo.req_abc
                        (init (set_now Demo.noon_next
                                 (world (snd (Demo.run Demo.rejecting Demo.req_abc
                                                Demo.world0)))))))) = [].
Proof.
  apply (key_runs_at_most_once Demo.lib Demo.rejecting ∅ Demo.req_abc
           Demo.req_abc "abc" Demo.world0).
  - reflexivity.
  - reflexivity.
  - reflexivity.
  - unfold keeps_path. simpl. repeat split; intros; try assumption.
  - reflexivity.
Defined.


Lemma decision_writes_named_files_demo :
  own_path Demo.lib Demo.req_abc "data/audit/20261103T120000Z-RU_001-a87.json" /\
  (has_slash (targetRU Demo.req_abc) = false ->
   is_audit_path "data/audit/20261103T120000Z-RU_001-a87.json" = true ->
   directly_in audit_dir "data/audit/20261103T120000Z-RU_001-a87.json").
Proof.
  apply (decision_writes_named_files Demo.lib Demo.live ∅ Demo.req_abc
           Demo.world0).
  vm_compute. right. left. reflexivity.
Defined.

Lemma non_dict_result_audited_not_logged_demo :
  exists s3,
    decision Demo.lib Probe.silent ∅ default_req (init Demo.world0) =
      (Raise AttributeError, s3) /\
    files (world s3) !! audit_file
        (audit_id_at default_req
           (Probe.after_push Probe.silent default_req Demo.payload_hold Demo.world0)) =
      Some (audit_text Demo.lib default_req
              (Probe.after_push Probe.silent default_req Demo.payload_hold Demo.world0)
              Demo.hold_decision Demo.payload_hold PNone) /\
    files (world s3) !! log_file =
      files (world (Probe.after_push Probe.silent default_req Demo.payload_hold
                      Demo.world0)) !! log_file /\
    writes (trace s3) =
      writes (trace (Probe.after_push Probe.silent default_req Demo.payload_hold
                       Demo.world0)) ++
      [audit_file
         (audit_id_at default_req
            (Probe.after_push Probe.silent default_req Demo.payload_hold Demo.world0))].
Proof.
  apply (non_dict_result_audited_not_logged Demo.lib Probe.silent ∅ default_req
           Demo.world0 (Demo.after_check default_req Demo.world0)
           Demo.hold_decision Demo.payload_hold
           (Demo.after_compute Probe.silent default_req Demo.world0)
           PNone
           (Probe.after_push Probe.silent default_req Demo.payload_hold Demo.world0)).
  - vm_compute. reflexivity.
  - vm_compute. reflexivity.
  - vm_compute. reflexivity.
  - reflexivity.
  - vm_compute. reflexivity.
Defined.


Lemma push_exception_skips_audit_demo :
  decision Demo.lib Probe.unreachable ∅ Demo.req_abc (init Demo.world0) =
    (Raise (Raised "ConnectionError"),
     Probe.after_push Probe.unreachable Demo.req_abc Demo.payload_hold Demo.world0) /\
  writes (trace (Probe.after_push Probe.unreachable Demo.req_abc Demo.payload_hold
                   Demo.world0)) = guard_writes Demo.lib Demo.req_abc /\
  audit_writes (trace (Probe.after_push Probe.unreachable Demo.req_abc
                         Demo.payload_hold Demo.world0)) = [] /\
  log_appends (trace (Probe.after_push Probe.unreachable Demo.req_abc
                        Demo.payload_hold Demo.world0)) = [].
Proof.
  apply (push_exception_skips_audit Demo.lib Probe.unreachable ∅ Demo.req_abc
           Demo.world0 (Demo.after_check Demo.req_abc Demo.world0)
           Demo.hold_decision Demo.payload_hold
           (Demo.after_compute Probe.unreachable Demo.req_abc Demo.world0)
           (Raised "ConnectionError")
           (Probe.after_push Probe.unreachable Demo.req_abc Demo.payload_hold
              Demo.world0)).
  - vm_compute. reflexivity.
  - vm_compute. reflexivity.
  - vm_compute. reflexivity.
Defined.

Lemma flag_write_failure_stops_request_demo :
  exists s',
    decision Demo.lib Demo.live ∅ Demo.req_abc (init Probe.world_no_flag) =
      (Raise (refused_error Probe.world_no_flag (idem_flag Demo.lib "abc")), s') /\
    world s' = refused_world Probe.world_no_flag (idem_flag Demo.lib "abc") /\
    calls (trace s') = [] /\ writes (trace s') = [] /\
    (forall kept,
       refusal Probe.world_no_flag (idem_flag Demo.lib "abc") =
         RefusedAfterOpen kept ->
       files (world s') !! idem_flag Demo.lib "abc" = Some kept /\
       forall req2 w2,
         key_given (idempotency_key req2) = Some "abc" ->
         files w2 = files (world s') ->
         fst (decision Demo.lib Demo.live ∅ req2 (init w2)) =
           Ok (duplicate_response "abc")) /\
    ((forall kept,
        refusal Probe.world_no_flag (idem_flag Demo.lib "abc") <>
          RefusedAfterOpen kept) ->
       files (world s') !! idem_flag Demo.lib "abc" = None).
Proof.
  apply (flag_write_failure_stops_request Demo.lib Demo.live ∅ Demo.req_abc
           Probe.world_no_flag "abc").
  - reflexivity.
  - reflexivity.
  - reflexivity.
Defined.

(** The flag write refused after the open, on the instance: the request
    fails, and its retry is turned away. *)
Lemma spent_key_demo :
  fst (Demo.run Demo.live Demo.req_abc Probe.world_no_flag) =
    Raise (OSError "data/idempotency/habc.flag") /\
  files (world (snd (Demo.run Demo.live Demo.req_abc Probe.world_no_flag)))
    !! "data/idempotency/habc.flag" = Some "" /\
  fst (Demo.run Demo.live Demo.req_abc
         (world (snd (Demo.run Demo.live Demo.req_abc Probe.world_no_flag)))) =
    Ok (duplicate_response "abc").
Proof. repeat split; vm_compute; reflexivity. Qed.


Lemma forecast_ignores_minutes_and_unset_window_demo :
  forecast Probe.forecasting ∅ Probe.frames ∅ Probe.window_req (init Demo.world0) =
  forecast Probe.forecasting ∅ Probe.frames ∅ Probe.other_req (init Demo.world0).
Proof.
  apply (forecast_ignores_minutes_and_unset_window Probe.forecasting ∅
           Probe.frames ∅ Probe.window_req Probe.other_req (init Demo.world0)).
  left. left. reflexivity.
Defined.

(** The forecast of the instance is answered from the synthetic data
    without a [PM_API_URL] and from the window with one, blank or not. *)
Lemma forecast_demo_answers :
  fst (forecast Probe.forecasting ∅ Probe.frames ∅ Probe.window_req
         (init Demo.world0)) =
    Ok (PDict [("forecast_path", PStr "data/processed/forecast.csv");
               ("points", PInt 3);
               ("timestamps", PList [PStr "1"; PStr "2"; PStr "3"]);
               ("p10", PList [PInt 1; PInt 2; PInt 3]);
               ("p50", PList [PInt 1; PInt 2; PInt 3]);
               ("p90", PList [PInt 1; PInt 2; PInt 3])]) /\
  calls (trace (snd (forecast Probe.forecasting ∅ Probe.frames Probe.env_blank
                       Probe.window_req (init Demo.world0)))) =
    [FetchPm; RunEtl; PredictNextWindow].
Proof. split; vm_compute; reflexivity. Qed.

(** ** The log, the marks and the dry run *)

Lemma string_app_assoc (a b c : string) : (a +:+ b) +:+ c = a +:+ (b +:+ c).
Proof.
  induction a as [|x a IH]; [reflexivity|].
  change (String x ((a +:+ b) +:+ c) = String x (a +:+ (b +:+ c))).
  rewrite IH. reflexivity.
Qed.

Lemma string_app_nil_r (a : string) : a +:+ "" = a.
Proof.
  induction a as [|x a IH]; [reflexivity|].
  change (String x (a +:+ "") = String x a). rewrite IH. reflexivity.
Qed.

Section LogAndMarks.
Context {Ext : Type}.
Variable L : Library.
Variable P : Pipeline Ext.
Variable environ : gmap string string.
Implicit Types s : St Ext.
Implicit Types w : World Ext.

Lemma preserves_write_other (Q : option string -> Prop) q p text :
  p <> q -> preserves (fun w => Q (files w !! q)) (@write_text Ext p text).
Proof.
  intros Hne s H. unfold write_text.
  destruct (faulty (world s) p).
  - destruct (refusal (world s) p); try exact H. simpl.
    rewrite lookup_insert_ne by exact Hne. exact H.
  - simpl. rewrite lookup_insert_ne by exact Hne. exact H.
Qed.

Lemma preserves_append_log base text :
  preserves (log_extends base) (@append_text Ext log_file text).
Proof.
  intros s [more H]. unfold append_text.
  destruct (faulty (world s) log_file); [exists more; exact H|].
  exists (more +:+ text). cbn [snd world files set_files].
  rewrite lookup_insert_eq, H, <- string_app_assoc. reflexivity.
Qed.

Lemma decision_keeps_log req base :
  modules_keep P (log_extends base) ->
  preserves (log_extends base) (decision L P environ req).
Proof.
  intros (Hf & He & Hp & Hd & Hb & Hs).
  assert (forall p text, p <> log_file ->
            preserves (log_extends base) (@write_text Ext p text)) as Hw.
  { intros p text Hne.
    apply (preserves_write_other
             (fun o => exists more, o = Some (base +:+ more)) log_file p text Hne). }
  unfold decision, idempotency_check, pipeline, compute_steps, forecast_step,
    decision_step, policy_step, push_step, audit_step.
  repeat (first
    [ apply preserves_bind; [|intros ?]
    | apply preserves_call; intros ? ?; auto
    | apply preserves_read
    | apply Hw; discriminate
    | apply preserves_append_log
    | apply preserves_mkdir
    | apply preserves_now
    | apply preserves_exists
    | apply preserves_py_get
    | apply preserves_ret
    | apply preserves_raise
    | match goal with
      | |- preserves _ (match ?x with _ => _ end) => destruct x
      | |- preserves _ (if ?x then _ else _) => destruct x
      end ]).
Qed.

(** The decision log is append-only: whatever the request and however
    it ends, the log afterwards starts with the log before, as long as
    the modules leave the lines there alone. *)
Theorem log_is_append_only req w base :
  files w !! log_file = Some base ->
  modules_keep P (log_extends base) ->
  exists more,
    files (world (snd (decision L P environ req (init w)))) !! log_file =
      Some (base +:+ more).
Proof.
  intros Hbase Hkeep.
  apply (decision_keeps_log req base Hkeep (init w)).
  exists "". rewrite string_app_nil_r. exact Hbase.
Qed.

(** A request with a key is answered with the duplicate object exactly
    when the flag of its key is on disk: a key whose flag is not there
    is never turned away, whatever other keys are marked. *)
Theorem duplicate_iff_marked req w k :
  key_given (idempotency_key req) = Some k ->
  fst (decision L P environ req (init w)) = Ok (duplicate_response k) <->
  is_Some (files w !! idem_flag L k).
Proof.
  intros Hk. split.
  - intros H.
    destruct (files w !! idem_flag L k) as [text|] eqn:E; [eauto|].
    exfalso. revert H. unfold decision.
    destruct (idempotency_check L req (init w)) as [[[r0|]|e] s0] eqn:G.
    + revert G. unfold idempotency_check. rewrite Hk.
      unfold bind, mkdir_p, emit, path_exists, datetime_now, write_text; simpl.
      destruct (stat_refused _ _); [discriminate|].
      rewrite bool_decide_eq_false_2 by (rewrite E; intros [? ?]; discriminate).
      simpl. destruct (faulty w (idem_flag L k));
        [destruct (refusal w (idem_flag L k))|]; discriminate.
    + rewrite (bind_ok _ _ _ _ _ G).
      destruct (pipeline L P environ req s0) as [[r|e] s'] eqn:Hp;
        [|discriminate].
      simpl. intros H. injection H as ->.
      apply pipeline_shape in Hp. destruct Hp as (a & d & p & r & Hp).
      symmetry in Hp. revert Hp. apply response_not_duplicate.
    + rewrite (bind_raise _ _ _ _ _ G). discriminate.
  - intros Hflag. unfold decision.
    rewrite (bind_ok _ _ _ _ _
               (idempotency_check_seen L req k (init w) Hk Hflag)).
    reflexivity.
Qed.

(** A dry run previews the live run: from the same world, a request and
    its dry-run twin that are both answered are both duplicates or carry
    the same decision and the same policy payload, and the dry run has
    left that payload in the payload file. *)
Theorem dry_run_previews_live_payload req w r1 s1 r2 s2 :
  decision L P environ (with_dry_run false req) (init w) = (Ok r1, s1) ->
  decision L P environ (with_dry_run true req) (init w) = (Ok r2, s2) ->
  (exists k, r1 = duplicate_response k /\ r2 = duplicate_response k) \/
  (exists id1 id2 decision_dict payload push1 push2,
     r1 = response id1 decision_dict payload push1 /\
     r2 = response id2 decision_dict payload push2 /\
     files (world s2) !! payload_file = Some (json_dumps_indent L payload)).
Proof.
  unfold decision. intros H1 H2.
  change (idempotency_check L (with_dry_run false req))
    with (@idempotency_check Ext L req) in H1.
  change (idempotency_check L (with_dry_run true req))
    with (@idempotency_check Ext L req) in H2.
  apply bind_ok_inv in H1. destruct H1 as (e1 & s0 & G1 & H1).
  apply bind_ok_inv in H2. destruct H2 as (e2 & s0' & G2 & H2).
  rewrite G1 in G2. injection G2 as <- <-.
  destruct e1 as [r0|].
  { left. injection H1 as <- _. injection H2 as <- _.
    apply idempotency_check_early in G1. destruct G1 as [k ->]. eauto. }
  right. unfold pipeline in H1, H2.
  change (compute_steps L P environ (with_dry_run false req))
    with (compute_steps L P environ req) in H1.
  change (compute_steps L P environ (with_dry_run true req))
    with (compute_steps L P environ req) in H2.
  apply bind_ok_inv in H1. destruct H1 as ([dd payload] & sc & C1 & H1).
  apply bind_ok_inv in H2. destruct H2 as ([dd' payload'] & sc' & C2 & H2).
  rewrite C1 in C2. injection C2 as <- <- <-.
  apply bind_ok_inv in H1. destruct H1 as (pr1 & sp1 & _ & H1).
  apply bind_ok_inv in H2. destruct H2 as (pr2 & sp2 & Hpush & H2).
  pose proof (audit_step_shape _ _ _ _ _ _ _ _ H1) as ->.
  pose proof (audit_step_shape _ _ _ _ _ _ _ _ H2) as ->.
  eexists _, _, dd, payload, pr1, pr2.
  split; [reflexivity|]. split; [reflexivity|].
  rewrite (audit_step_frame L _ _ _ _ _ _ _ payload_file H2);
    [| apply payload_file_not_audit | discriminate].
  revert Hpush. unfold push_step. simpl.
  unfold bind, mkdir_p, emit, write_text; simpl.
  destruct (faulty (world sc) payload_file);
    [destruct (refusal (world sc) payload_file); discriminate|].
  intros H. injection H as _ <-. simpl. apply lookup_insert_eq.
Qed.

End LogAndMarks.

Lemma log_is_append_only_demo :
  exists more,
    files (world (snd (decision Demo.lib Demo.live ∅ Demo.req_second
                         (init Demo.world_next)))) !! log_file =
      Some (log_text Demo.lib Demo.req_first (init Demo.world0)
              Demo.hold_fields Demo.sent_fields +:+ more).
Proof.
  apply (log_is_append_only Demo.lib Demo.live ∅ Demo.req_second Demo.world_next
           (log_text Demo.lib Demo.req_first (init Demo.world0)
              Demo.hold_fields Demo.sent_fields)).
  - vm_compute. reflexivity.
  - unfold modules_keep, log_extends. simpl.
    repeat split; intros; try assumption.
    rewrite lookup_insert_ne by discriminate. assumption.
Defined.

Lemma duplicate_iff_marked_demo :
  fst (decision Demo.lib Demo.live ∅ Demo.req_abc (init Demo.world_marked)) =
    Ok (duplicate_response "abc") <->
  is_Some (files Demo.world_marked !! idem_flag Demo.lib "abc").
Proof.
  apply (duplicate_iff_marked Demo.lib Demo.live ∅ Demo.req_abc
           Demo.world_marked "abc").
  reflexivity.
Defined.

Lemma dry_run_previews_live_payload_demo :
  (exists k,
     Demo.answer (Demo.run Demo.live (with_dry_run false default_req) Demo.world0) =
       duplicate_response k /\
     Demo.answer (Demo.run Demo.live (with_dry_run true default_req) Demo.world0) =
       duplicate_response k) \/
  (exists id1 id2 decision_dict payload push1 push2,
     Demo.answer (Demo.run Demo.live (with_dry_run false default_req) Demo.world0) =
       response id1 decision_dict payload push1 /\
     Demo.answer (Demo.run Demo.live (with_dry_run true default_req) Demo.world0) =
       response id2 decision_dict payload push2 /\
     files (world (snd (Demo.run Demo.live (with_dry_run true default_req)
                          Demo.world0))) !! payload_file =
       Some (json_dumps_indent Demo.lib payload)).
Proof.
  apply (dry_run_previews_live_payload Demo.lib Demo.live ∅ default_req
           Demo.world0
           (Demo.answer (Demo.run Demo.live (with_dry_run false default_req)
                           Demo.world0))
           (snd (Demo.run Demo.live (with_dry_run false default_req) Demo.world0))
           (Demo.answer (Demo.run Demo.live (with_dry_run true default_req)
                           Demo.world0))
           (snd (Demo.run Demo.live (with_dry_run true default_req) Demo.world0))).
  - vm_compute. reflexivity.
  - vm_compute. reflexivity.
Defined.

Lemma healthz_env_flags_demo :
  (dict_lookup "pm_api_mode" (Probe.health_fields Probe.env_lab Probe.world_model) =
     Some (PBool true) <->
   exists v, Probe.env_lab !! "PM_API_URL" = Some v /\ all_space v = false) /\
  (dict_lookup "a1_url_set" (Probe.health_fields Probe.env_lab Probe.world_model) =
     Some (PBool true) <->
   exists v, Probe.env_lab !! "A1_URL" = Some v /\ all_space v = false).
Proof.
  apply (healthz_env_flags ∅ Probe.env_lab (init Probe.world_model)
           (Probe.health_fields Probe.env_lab Probe.world_model)
           (snd (healthz ∅ Probe.env_lab (init Probe.world_model)))).
  vm_compute. reflexivity.
Defined.

(** [/healthz] on the instance: an answer with the model in place, and
    an [OSError] when the model path cannot be looked up. *)
Lemma healthz_demo :
  fst (healthz ∅ Probe.env_lab (init Probe.world_model)) =
    Ok (PDict [("status", PStr "ok"); ("model_exists", PBool true);
               ("meta_exists", PBool false); ("pm_api_mode", PBool true);
               ("a1_url_set", PBool false)]) /\
  fst (healthz ∅ Probe.env_lab (init Probe.world_unsearchable)) =
    Raise (OSError "models/model.onnx").
Proof. split; vm_compute; reflexivity. Qed.
